(** * SecureCheck: the ingestion scripts and the query layer

    A shallow embedding of [data_cleaning.py], [process_data.py] and the
    data layer of [app.py], and the properties of the specification that
    are settled on it.

    - pandas objects live in a heap of frames; [preprocess_data] is
      written in a state-and-exception monad over that heap, statement by
      statement.  pandas is the one the scripts are written for: without
      copy-on-write, so that [df[col].fillna(v, inplace=True)] writes to
      the frame;
    - the SQLite table is a list of typed rows, the queries of [app.py]
      are functions over it.  Rows with equal sort keys come out in the
      order of the table; nothing proved depends on that choice;
    - SQLite's REAL is modelled by exact rationals ([Q]): rounding is
      outside the model;
    - strings are sequences of bytes. *)

From Stdlib Require Import ZArith QArith String Ascii List.
From stdpp Require Import base option list strings sorting.

Open Scope string_scope.
Open Scope Z_scope.

(** ** Python values held by a DataFrame *)

Record date := Date { year : Z; month : Z; day : Z }.
Record time := Time { hour : Z; minute : Z; second : Z; microsecond : Z }.

(** A [pandas.Timestamp]: a calendar date and a time of day. *)
Abbreviation datetime := (date * time)%type.

Definition midnight : time := Time 0 0 0 0.

(** The objects a cell of the traffic-stop frame can hold.  [NaN],
    [PyNone] and [NaT] are the three missing markers pandas knows. *)
Inductive cell :=
| NaN
| PyNone
| NaT
| VBool (b : bool)
| VInt (n : Z)
| VFloat (q : Q)
| VStr (s : string)
| VDate (d : date)
| VTime (t : time).

Inductive exn :=
| KeyError (key : string)
| TypeError
| ValueError
| ReferenceError
| IntegrityError
| OperationalError.

Inductive result (A : Type) :=
| Ok (a : A)
| Raise (e : exn).
Arguments Ok {A} a.
Arguments Raise {A} e.

#[global] Instance result_ret : MRet result := fun A a => Ok a.
#[global] Instance result_bind : MBind result := fun A B f r =>
  match r with
  | Ok a => f a
  | Raise e => Raise e
  end.
#[global] Instance result_fmap : FMap result := fun A B f r =>
  match r with
  | Ok a => Ok (f a)
  | Raise e => Raise e
  end.

(** [pandas.isna] on a scalar. *)
Definition isna (c : cell) : bool :=
  match c with
  | NaN | PyNone | NaT => true
  | _ => false
  end.

(** Python's [bool(x)], which is what [astype(bool)] applies to each
    object: [None], [False], zero and the empty string are false, every
    other object is true; [float('nan')] is not zero, so it is true. *)
Definition py_bool (c : cell) : bool :=
  match c with
  | PyNone => false
  | NaN | NaT => true
  | VBool b => b
  | VInt n => negb (n =? 0)
  | VFloat q => negb (Qnum q =? 0)
  | VStr s => negb (String.eqb s "")
  | VDate _ | VTime _ => true
  end.

(** [str(t)] for a [datetime.time]: HH:MM:SS, followed by .ffffff when
    the microsecond field is not zero. *)
Definition digit (n : Z) : ascii := ascii_of_nat (48 + Z.to_nat (n mod 10))%nat.

Definition pad2 (n : Z) : string :=
  String (digit (n / 10)) (String (digit n) "").

Definition pad6 (n : Z) : string :=
  String (digit (n / 100000)) (String (digit (n / 10000))
    (String (digit (n / 1000)) (String (digit (n / 100)) (pad2 n)))).

Definition isoformat (t : time) : string :=
  pad2 (hour t) ++ ":" ++ pad2 (minute t) ++ ":" ++ pad2 (second t) ++
  (if microsecond t =? 0 then "" else "." ++ pad6 (microsecond t)).

(** ** The part of pandas that is not this repository's code

    [pd.to_datetime] reads a scalar that is neither missing nor already a
    date or a time (a string of the CSV, a number) with the format given,
    or with the format it guesses when none is given.  Which spellings it
    accepts is pandas' business: the parser is an interface, and what is
    proved holds for every parser. [Ok None] is [NaT]. *)
Class Pandas := {
  parse_scalar : option string -> cell -> result (option datetime)
}.

(** ** DataFrames *)

Abbreviation Series := (list cell).

(** A frame: the row labels and the columns in their order, each a name
    and its cells (one per row). *)
Record DataFrame := {
  index : list Z;
  columns : list (string * Series)
}.

Fixpoint lookup_column (name : string) (cols : list (string * Series))
  : option Series :=
  match cols with
  | [] => None
  | (k, s) :: rest => if String.eqb k name then Some s else lookup_column name rest
  end.

(** [df[name]]: the column, or [KeyError]. *)
Definition getitem (df : DataFrame) (name : string) : result Series :=
  match lookup_column name (columns df) with
  | Some s => Ok s
  | None => Raise (KeyError name)
  end.

Fixpoint assign_column (name : string) (s : Series)
  (cols : list (string * Series)) : list (string * Series) :=
  match cols with
  | [] => [(name, s)]
  | (k, old) :: rest =>
      if String.eqb k name then (k, s) :: rest
      else (k, old) :: assign_column name s rest
  end.

(** [df[name] = s]: replaces the column where it stands, or appends it. *)
Definition setitem (df : DataFrame) (name : string) (s : Series) : DataFrame :=
  {| index := index df; columns := assign_column name s (columns df) |}.

(** [df.dropna(axis=1, how='all')]: a new frame without the columns whose
    cells are all missing (a column of a frame with no row is such a
    column). *)
Definition dropna_all_columns (df : DataFrame) : DataFrame :=
  {| index := index df;
     columns := filter (fun kc => negb (forallb isna kc.2)) (columns df) |}.

(** [df.drop(columns=names, errors='ignore')]: a new frame without the
    named columns; a name that is no column is passed over. *)
Definition drop_columns (names : list string) (df : DataFrame) : DataFrame :=
  {| index := index df;
     columns := filter (fun kc => negb (bool_decide (kc.1 ∈ names))) (columns df) |}.

(** [s.fillna(v)]. *)
Definition fillna (v : cell) (s : Series) : Series :=
  map (fun c => if isna c then v else c) s.

(** [s.astype(bool)]. *)
Definition astype_bool (s : Series) : Series :=
  map (fun c => VBool (py_bool c)) s.

Section to_datetime.
Context `{Pandas}.

(** [pd.to_datetime] on one cell: a missing value gives [NaT], a date
    object is taken as it is, a time object is not convertible unless a
    format is given, in which case its [str] is parsed like any other
    string. *)
Definition to_datetime_cell (format : option string) (c : cell)
  : result (option datetime) :=
  match c with
  | NaN | PyNone | NaT => Ok None
  | VDate d => Ok (Some (d, midnight))
  | VTime t =>
      match format with
      | None => Raise TypeError
      | Some _ => parse_scalar format (VStr (isoformat t))
      end
  | _ => parse_scalar format c
  end.

Fixpoint to_datetime (format : option string) (s : Series)
  : result (list (option datetime)) :=
  match s with
  | [] => Ok []
  | c :: rest =>
      t ← to_datetime_cell format c;
      ts ← to_datetime format rest;
      Ok (t :: ts)
  end.
End to_datetime.

(** The [.dt.date] and [.dt.time] accessors. *)
Definition dt_date (ts : list (option datetime)) : Series :=
  map (fun t => match t with Some dt => VDate dt.1 | None => NaT end) ts.

Definition dt_time (ts : list (option datetime)) : Series :=
  map (fun t => match t with Some dt => VTime dt.2 | None => NaT end) ts.

(** ** The heap of frames

    A Python variable holds a reference.  [dropna] and [drop] build new
    objects, [fillna(inplace=True)] and [df[col] = ...] change the object
    the reference points to. *)

Abbreviation ref := nat.
Abbreviation heap := (list DataFrame).

(** Statements run in a state [S] and end in a value or an exception. *)
Definition ST (S A : Type) : Type := S -> result A * S.

#[global] Instance ST_ret {S} : MRet (ST S) := fun A a h => (Ok a, h).
#[global] Instance ST_bind {S} : MBind (ST S) := fun A B f m h =>
  match m h with
  | (Ok a, h') => f a h'
  | (Raise e, h') => (Raise e, h')
  end.

Abbreviation M := (ST heap).

Definition lift {S A} (r : result A) : ST S A := fun h => (r, h).

(** A new object, at the next free address. *)
Definition new (df : DataFrame) : M ref := fun h => (Ok (length h), (h ++ [df])%list).

Definition deref (r : ref) : M DataFrame := fun h =>
  match h !! r with
  | Some df => (Ok df, h)
  | None => (Raise ReferenceError, h)
  end.

Definition store (r : ref) (df : DataFrame) : M unit := fun h =>
  (Ok tt, <[r := df]> h).

(** The statements of [preprocess_data], on references. *)
Definition dropna (df : ref) : M ref :=
  d ← deref df; new (dropna_all_columns d).

Definition drop (df : ref) (names : list string) : M ref :=
  d ← deref df; new (drop_columns names d).

Definition get_column (df : ref) (name : string) : M Series :=
  d ← deref df; lift (getitem d name).

Definition set_column (df : ref) (name : string) (s : Series) : M unit :=
  d ← deref df; store df (setitem d name s).

(** [df[name].fillna(v, inplace=True)]: the column is looked up (and must
    exist), and its missing cells are overwritten in the frame the
    column was taken from. *)
Definition fillna_inplace (df : ref) (name : string) (v : cell) : M unit :=
  s ← get_column df name; set_column df name (fillna v s).

Fixpoint for_each {A} (l : list A) (body : A -> M unit) : M unit :=
  match l with
  | [] => mret tt
  | a :: rest => _ ← body a; for_each rest body
  end.

Section preprocess.
Context `{Pandas}.

(** The body the two scripts share; they differ in the [format] given
    to the last [pd.to_datetime]. *)
Definition preprocess_data_with (time_format : option string) (df : ref)
  : M ref :=
  df_cleaned ← dropna df;
  df_cleaned ← drop df_cleaned ["driver_age_raw"];
  _ ← fillna_inplace df_cleaned "search_type" (VStr "None Conducted");
  _ ← fillna_inplace df_cleaned "vehicle_number" (VStr "Unknown");
  _ ← for_each ["search_conducted"; "is_arrested"; "drugs_related_stop"]
        (fun col =>
           s ← get_column df_cleaned col;
           set_column df_cleaned col (astype_bool s));
  s ← get_column df_cleaned "stop_date";
  ts ← lift (to_datetime None s);
  _ ← set_column df_cleaned "stop_date" (dt_date ts);
  s ← get_column df_cleaned "stop_time";
  ts ← lift (to_datetime time_format s);
  _ ← set_column df_cleaned "stop_time" (dt_time ts);
  mret df_cleaned.
End preprocess.

(** [normalize] of the specification: the frame a run of
    [preprocess_data] returns when the raw frame is the only object of
    the heap. *)
Definition returned_frame (run : result ref * heap) : result DataFrame :=
  match run with
  | (Ok r, h) =>
      match h !! r with
      | Some df => Ok df
      | None => Raise ReferenceError
      end
  | (Raise e, _) => Raise e
  end.

(** ** The table [traffic_stops]

    A row of the schema of [create_table_sql].  The columns declared
    NOT NULL hold a value, the others an optional one; dates and times
    are kept as calendar values, compared field by field from the most
    significant one, which is the order of the ISO texts SQLite stores. *)
Record stop := {
  stop_id : Z;
  stop_date : date;
  stop_time : time;
  country_name : string;
  driver_gender : option string;
  driver_age : option Z;
  driver_race : option string;
  violation_raw : option string;
  violation : string;
  search_conducted : bool;
  search_type : option string;
  stop_outcome : option string;
  is_arrested : bool;
  stop_duration : option string;
  drugs_related_stop : bool;
  vehicle_number : option string
}.

Abbreviation table := (list stop).

Definition TABLE_NAME : string := "traffic_stops".

Definition table_columns : list string :=
  ["stop_id"; "stop_date"; "stop_time"; "country_name"; "driver_gender";
   "driver_age"; "driver_race"; "violation_raw"; "violation";
   "search_conducted"; "search_type"; "stop_outcome"; "is_arrested";
   "stop_duration"; "drugs_related_stop"; "vehicle_number"].

(** *** Binding the cells of a frame row to the columns

    A missing cell is NULL.  A cell that is not of the column's declared
    type is refused with [TypeError]: SQLite would keep it under its
    affinity rules, which a typed row cannot hold, so frames with such
    cells are outside the model. *)
Definition as_text (c : cell) : result (option string) :=
  match c with
  | NaN | PyNone | NaT => Ok None
  | VStr s => Ok (Some s)
  | _ => Raise TypeError
  end.

Definition as_int (c : cell) : result (option Z) :=
  match c with
  | NaN | PyNone | NaT => Ok None
  | VInt n => Ok (Some n)
  | VFloat q =>
      if Qnum q mod Zpos (Qden q) =? 0 then Ok (Some (Qnum q / Zpos (Qden q)))
      else Raise TypeError
  | _ => Raise TypeError
  end.

Definition as_bool (c : cell) : result (option bool) :=
  match c with
  | NaN | PyNone | NaT => Ok None
  | VBool b => Ok (Some b)
  | _ => Raise TypeError
  end.

Definition as_date (c : cell) : result (option date) :=
  match c with
  | NaN | PyNone | NaT => Ok None
  | VDate d => Ok (Some d)
  | _ => Raise TypeError
  end.

Definition as_time (c : cell) : result (option time) :=
  match c with
  | NaN | PyNone | NaT => Ok None
  | VTime t => Ok (Some t)
  | _ => Raise TypeError
  end.

(** A NOT NULL column refuses NULL. *)
Definition not_null {A} (v : option A) : result A :=
  match v with
  | Some a => Ok a
  | None => Raise IntegrityError
  end.

(** One row of a frame: its cells under their column names. *)
Abbreviation record := (list (string * cell)).

Fixpoint field (name : string) (r : record) : cell :=
  match r with
  | [] => PyNone
  | (k, c) :: rest => if String.eqb k name then c else field name rest
  end.

Definition iloc (df : DataFrame) (i : nat) : record :=
  map (fun kc => (kc.1, default NaN (kc.2 !! i))) (columns df).

(** The INSERT of one row under the key [id]: every name of the row must
    be a column of the table, a column the row does not name is NULL. *)
Definition insert_values (id : Z) (r : record) : result stop :=
  if negb (forallb (fun kc => bool_decide (kc.1 ∈ table_columns)) r)
  then Raise OperationalError
  else
    stop_date ← as_date (field "stop_date" r) ≫= not_null;
    stop_time ← as_time (field "stop_time" r) ≫= not_null;
    country_name ← as_text (field "country_name" r) ≫= not_null;
    driver_gender ← as_text (field "driver_gender" r);
    driver_age ← as_int (field "driver_age" r);
    driver_race ← as_text (field "driver_race" r);
    violation_raw ← as_text (field "violation_raw" r);
    violation ← as_text (field "violation" r) ≫= not_null;
    search_conducted ← as_bool (field "search_conducted" r) ≫= not_null;
    search_type ← as_text (field "search_type" r);
    stop_outcome ← as_text (field "stop_outcome" r);
    is_arrested ← as_bool (field "is_arrested" r) ≫= not_null;
    stop_duration ← as_text (field "stop_duration" r);
    drugs_related_stop ← as_bool (field "drugs_related_stop" r) ≫= not_null;
    vehicle_number ← as_text (field "vehicle_number" r);
    Ok {| stop_id := id; stop_date := stop_date; stop_time := stop_time;
          country_name := country_name; driver_gender := driver_gender;
          driver_age := driver_age; driver_race := driver_race;
          violation_raw := violation_raw; violation := violation;
          search_conducted := search_conducted; search_type := search_type;
          stop_outcome := stop_outcome; is_arrested := is_arrested;
          stop_duration := stop_duration;
          drugs_related_stop := drugs_related_stop;
          vehicle_number := vehicle_number |}.

(** The key SQLite gives a row inserted without one: one more than the
    largest key of the table, 1 in an empty table. *)
Definition next_rowid (t : table) : Z :=
  match map stop_id t with
  | [] => 1
  | k :: ks => foldr Z.max k ks + 1
  end.

Definition has_field (name : string) (r : record) : bool :=
  existsb (fun kc => String.eqb kc.1 name) r.

(** The key of an inserted row: the index label when the index is
    written as [stop_id] (a frame that has a column of that name as well
    is refused by pandas), else the [stop_id] of the row if it has one,
    else the key SQLite gives. *)
Definition row_key (with_index : bool) (label : Z) (r : record) (t : table)
  : result Z :=
  if with_index then
    if has_field "stop_id" r then Raise ValueError else Ok label
  else
    k ← as_int (field "stop_id" r);
    Ok (default (next_rowid t) k).

(** [df.to_sql(TABLE_NAME, engine, if_exists='append', index=...)]: the
    rows are inserted one after the other from the first to the last; a
    key already in the table is an [IntegrityError].  The insertion is
    one transaction: on an error the table is the one before the call. *)
Fixpoint insert_rows (with_index : bool) (df : DataFrame)
  (labels : list Z) (i : nat) (t : table) : result table :=
  match labels with
  | [] => Ok t
  | label :: rest =>
      id ← row_key with_index label (iloc df i) t;
      if bool_decide (id ∈ map stop_id t) then Raise IntegrityError
      else
        r ← insert_values id (iloc df i);
        insert_rows with_index df rest (S i) (t ++ [r])%list
  end.

Definition to_sql (df : DataFrame) (with_index : bool) : ST table unit :=
  fun t =>
    match insert_rows with_index df (index df) 0 t with
    | Ok t' => (Ok tt, t')
    | Raise e => (Raise e, t)
    end.

Module data_cleaning.
Definition preprocess_data `{Pandas} (df : ref) : M ref :=
  preprocess_data_with (Some "%H:%M:%S") df.

Definition normalize `{Pandas} (raw : DataFrame) : result DataFrame :=
  returned_frame (preprocess_data 0%nat [raw]).
End data_cleaning.

Module process_data.
Definition preprocess_data `{Pandas} (df : ref) : M ref :=
  preprocess_data_with None df.

Definition normalize `{Pandas} (raw : DataFrame) : result DataFrame :=
  returned_frame (preprocess_data 0%nat [raw]).

(** [CREATE TABLE IF NOT EXISTS] followed by the load of the frame with
    its index as [stop_id].  The database is the table, if there is
    one. *)
Definition create_and_load_database (df : DataFrame) (db : option table)
  : result unit * option table :=
  let t := default [] db in
  match to_sql df true t with
  | (r, t') => (r, Some t')
  end.

(** [pd.read_csv] labels the rows 0, 1, 2, ... in the order of the
    file. *)
Definition read_csv (cols : list (string * Series)) : DataFrame :=
  {| index := seqZ 0 (Z.of_nat (length (default [] (snd <$> head cols))));
     columns := cols |}.

(** The script: the database file is removed, the CSV read and
    normalized, and the result loaded. *)
Definition main `{Pandas} (csv : list (string * Series))
  : result unit * option table :=
  match normalize (read_csv csv) with
  | Ok processed_data => create_and_load_database processed_data None
  | Raise e => (Raise e, None)
  end.
End process_data.

(** ** SQLite operators *)

(** ASCII case folding, the only one [LIKE] does. *)
Definition lower (c : ascii) : ascii :=
  let n := nat_of_ascii c in
  if (65 <=? n)%nat && (n <=? 90)%nat then ascii_of_nat (n + 32) else c.

Fixpoint lower_string (s : string) : string :=
  match s with
  | EmptyString => EmptyString
  | String c s' => String (lower c) (lower_string s')
  end.

(** [s LIKE p]: [%] stands for any run of characters, [_] for any one
    character, every other character for itself up to ASCII case. *)
Fixpoint like (p s : string) {struct p} : bool :=
  match p with
  | EmptyString =>
      match s with
      | EmptyString => true
      | String _ _ => false
      end
  | String c p' =>
      if Ascii.eqb c "%" then
        (fix any (s : string) : bool :=
           like p' s ||
           match s with
           | EmptyString => false
           | String _ s' => any s'
           end) s
      else
        match s with
        | EmptyString => false
        | String d s' =>
            (Ascii.eqb c "_" || Ascii.eqb (lower c) (lower d)) && like p' s'
        end
  end.

(** [x LIKE p] on a nullable column: NULL is not a match. *)
Definition like_null (p : string) (x : option string) : bool :=
  match x with
  | Some s => like p s
  | None => false
  end.

(** [x BETWEEN lo AND hi]; on NULL the comparison is unknown and the
    WHEN is not taken. *)
Definition between (x : option Z) (lo hi : Z) : bool :=
  match x with
  | Some a => (lo <=? a) && (a <=? hi)
  | None => false
  end.

(** *** GROUP BY: one accumulator per key, stepped row by row *)

Fixpoint step_group {K A} `{EqDecision K} (k : K) (f : A -> A) (init : A)
  (groups : list (K * A)) : list (K * A) :=
  match groups with
  | [] => [(k, f init)]
  | (k', a) :: rest =>
      if decide (k' = k) then (k', f a) :: rest
      else (k', a) :: step_group k f init rest
  end.

Definition group_by {K A} `{EqDecision K} (key : stop -> K)
  (step : stop -> A -> A) (init : A) (t : table) : list (K * A) :=
  fold_left (fun groups r => step_group (key r) (step r) init groups) t [].

(** [SUM(CASE WHEN flag = TRUE THEN 1 ELSE 0 END)]. *)
Definition indicator (flag : bool) : Z := if flag then 1 else 0.

(** [CAST(s AS REAL) * 100 / n], in exact arithmetic. *)
Definition percentage (s n : Z) : Q := (inject_Z s * 100 / inject_Z n)%Q.

(** *** ORDER BY stop_date DESC, stop_time DESC *)

Fixpoint lex_compare (k1 k2 : list Z) : comparison :=
  match k1, k2 with
  | [], [] => Eq
  | [], _ :: _ => Lt
  | _ :: _, [] => Gt
  | a :: k1', b :: k2' =>
      match a ?= b with
      | Eq => lex_compare k1' k2'
      | c => c
      end
  end.

Definition sort_key (r : stop) : list Z :=
  [year (stop_date r); month (stop_date r); day (stop_date r);
   hour (stop_time r); minute (stop_time r); second (stop_time r);
   microsecond (stop_time r)].

(** [r1] may stand before [r2]: it is not older. *)
Definition newest_first (r1 r2 : stop) : bool :=
  match lex_compare (sort_key r1) (sort_key r2) with
  | Lt => false
  | _ => true
  end.

(** The texts SQLite keeps for a date and a time, as read back. *)
Definition pad4 (n : Z) : string :=
  String (digit (n / 1000)) (String (digit (n / 100)) (pad2 n)).

Definition date_text (d : date) : string :=
  pad4 (year d) ++ "-" ++ pad2 (month d) ++ "-" ++ pad2 (day d).

Definition time_text (t : time) : string :=
  pad2 (hour t) ++ ":" ++ pad2 (minute t) ++ ":" ++ pad2 (second t) ++
  "." ++ pad6 (microsecond t).

Definition text_cell (x : option string) : cell :=
  match x with
  | Some s => VStr s
  | None => PyNone
  end.

Definition bool_cell (b : bool) : cell := VInt (indicator b).

(** ** [app.py]: the data layer *)

Module app.

Definition newline : string := String (ascii_of_nat 10) "".

(** A triple-quoted text, line by line. *)
Fixpoint unlines (ls : list string) : string :=
  match ls with
  | [] => ""
  | [l] => l
  | l :: rest => l ++ newline ++ unlines rest
  end.

Definition top_vehicles_sql : string := unlines [
  "";
  "        SELECT vehicle_number, COUNT(*) AS drug_stop_count";
  "        FROM traffic_stops";
  "        WHERE drugs_related_stop = TRUE AND vehicle_number IS NOT NULL";
  "        GROUP BY vehicle_number";
  "        ORDER BY drug_stop_count DESC";
  "        LIMIT 10;";
  "    "].

Definition arrest_rate_sql : string := unlines [
  "";
  "        SELECT";
  "            CASE";
  "                WHEN driver_age BETWEEN 16 AND 25 THEN '16-25'";
  "                WHEN driver_age BETWEEN 26 AND 35 THEN '26-35'";
  "                WHEN driver_age BETWEEN 36 AND 45 THEN '36-45'";
  "                ELSE '46+'";
  "            END AS age_group,";
  "            CAST(SUM(CASE WHEN is_arrested = TRUE THEN 1 ELSE 0 END) AS REAL) * 100 / COUNT(*) AS arrest_rate_percentage";
  "        FROM traffic_stops";
  "        GROUP BY age_group";
  "        ORDER BY arrest_rate_percentage DESC;";
  "    "].

Definition violation_rates_sql : string := unlines [
  "";
  "        SELECT ";
  "            violation,";
  "            CAST(SUM(CASE WHEN search_conducted = TRUE THEN 1 ELSE 0 END) AS REAL) * 100 / COUNT(*) AS search_rate,";
  "            CAST(SUM(CASE WHEN is_arrested = TRUE THEN 1 ELSE 0 END) AS REAL) * 100 / COUNT(*) AS arrest_rate,";
  "            (CAST(SUM(CASE WHEN search_conducted = TRUE THEN 1 ELSE 0 END) AS REAL) * 100 / COUNT(*) + ";
  "             CAST(SUM(CASE WHEN is_arrested = TRUE THEN 1 ELSE 0 END) AS REAL) * 100 / COUNT(*)) / 2 AS combined_rate";
  "        FROM traffic_stops";
  "        GROUP BY violation";
  "        ORDER BY combined_rate DESC;";
  "    "].

(** The dictionary of the analytics queries, in the order it is written
    (the order of the select box). *)
Definition ANALYTICS_QUERIES : list (string * string) := [
  ("Top 10 Vehicles in Drug-Related Stops [cite: 56]", top_vehicles_sql);
  ("Arrest Rate by Driver Age Group [cite: 59]", arrest_rate_sql);
  ("Violations with High Search/Arrest Rates [cite: 80]", violation_rates_sql)].

(** [d[key]] on a dictionary. *)
Fixpoint dict_getitem {V} (d : list (string * V)) (key : string) : result V :=
  match d with
  | [] => Raise (KeyError key)
  | (k, v) :: rest => if String.eqb k key then Ok v else dict_getitem rest key
  end.

(** *** The search text of section 3 *)

Definition base_query : string := unlines [
  "";
  "    SELECT ";
  "        stop_id, stop_date, stop_time, country_name, vehicle_number, ";
  "        violation, stop_outcome, is_arrested, drugs_related_stop ";
  "    FROM " ++ TABLE_NAME;
  ""].

(** The search term is pasted into the text between the two percent
    signs of each pattern. *)
Definition where_clause (search_term : string) : string :=
  if String.eqb search_term "" then ""
  else "WHERE country_name LIKE '%" ++ search_term ++
       "%' OR vehicle_number LIKE '%" ++ search_term ++ "%'".

Definition order_limit : string :=
  " ORDER BY stop_date DESC, stop_time DESC LIMIT 50".

Definition final_query (search_term : string) : string :=
  base_query ++ " " ++ where_clause search_term ++ order_limit.

(** *** The statements the engine is given

    The four shapes the texts above have.  The search statement carries
    the two patterns found between the quotes of its text. *)
Inductive statement :=
| TopVehicles
| ArrestRateByAgeGroup
| ViolationRates
| LatestLogs (patterns : option (string * string)).

Fixpoint strip_prefix (p s : string) : option string :=
  match p with
  | EmptyString => Some s
  | String c p' =>
      match s with
      | EmptyString => None
      | String d s' => if Ascii.eqb c d then strip_prefix p' s' else None
      end
  end.

(** The literal that runs up to the next quote, and the text after that
    quote.  A literal is not read when it holds a colon or a backslash
    (SQLAlchemy's [text()] takes the first for a bind parameter and the
    second for an escape) or when the quote is doubled. *)
Fixpoint read_literal (s : string) : option (string * string) :=
  match s with
  | EmptyString => None
  | String c s' =>
      if Ascii.eqb c "'" then
        match s' with
        | String d _ => if Ascii.eqb d "'" then None else Some ("", s')
        | EmptyString => Some ("", s')
        end
      else if Ascii.eqb c ":" || Ascii.eqb c "\" then None
      else
        match read_literal s' with
        | Some (lit, rest) => Some (String c lit, rest)
        | None => None
        end
  end.

Definition read_latest_logs (sql : string) : option statement :=
  rest ← strip_prefix (base_query ++ " ") sql;
  match strip_prefix "WHERE country_name LIKE '" rest with
  | Some rest =>
      '(p1, rest) ← read_literal rest;
      rest ← strip_prefix " OR vehicle_number LIKE '" rest;
      '(p2, rest) ← read_literal rest;
      if String.eqb rest order_limit then Some (LatestLogs (Some (p1, p2)))
      else None
  | None =>
      if String.eqb rest order_limit then Some (LatestLogs None) else None
  end.

(** The statement a text is.  [None]: the text is none of the four
    shapes (a search term that closes the literal turns it into another
    statement, or into no statement); what the engine does with it is
    outside the model. *)
Definition read_statement (sql : string) : option statement :=
  if String.eqb sql top_vehicles_sql then Some TopVehicles
  else if String.eqb sql arrest_rate_sql then Some ArrestRateByAgeGroup
  else if String.eqb sql violation_rates_sql then Some ViolationRates
  else read_latest_logs sql.

(** *** What the statements compute *)

Definition top_vehicles (t : table) : list (option string * Z) :=
  let stops :=
    filter (fun r => drugs_related_stop r && bool_decide (is_Some (vehicle_number r))) t in
  let groups := group_by vehicle_number (fun _ n => n + 1) 0 stops in
  take 10 (merge_sort (fun x y => y.2 <=? x.2) groups).

Definition age_group (r : stop) : string :=
  if between (driver_age r) 16 25 then "16-25"
  else if between (driver_age r) 26 35 then "26-35"
  else if between (driver_age r) 36 45 then "36-45"
  else "46+".

Definition arrest_rate_by_age_group (t : table) : list (string * Q) :=
  let groups :=
    group_by age_group
      (fun r a => (a.1 + indicator (is_arrested r), a.2 + 1)) (0, 0) t in
  merge_sort (fun x y => Qle_bool y.2 x.2)
    (map (fun g => (g.1, percentage g.2.1 g.2.2)) groups).

Record rates := {
  search_rate : Q;
  arrest_rate : Q;
  combined_rate : Q
}.

Definition violation_rates (t : table) : list (string * rates) :=
  let groups :=
    group_by violation
      (fun r a => (a.1.1 + indicator (search_conducted r),
                   a.1.2 + indicator (is_arrested r),
                   a.2 + 1)) (0, 0, 0) t in
  merge_sort (fun x y => Qle_bool (combined_rate y.2) (combined_rate x.2))
    (map (fun g =>
            (g.1, {| search_rate := percentage g.2.1.1 g.2.2;
                     arrest_rate := percentage g.2.1.2 g.2.2;
                     combined_rate :=
                       ((percentage g.2.1.1 g.2.2 + percentage g.2.1.2 g.2.2) / 2)%Q |}))
         groups).

(** The rows of the search: the WHERE clause if there is one, the
    ORDER BY, the LIMIT. *)
Definition where_matches (patterns : option (string * string)) (r : stop) : bool :=
  match patterns with
  | Some (p1, p2) => like p1 (country_name r) || like_null p2 (vehicle_number r)
  | None => true
  end.

Definition latest_logs (patterns : option (string * string)) (t : table)
  : list stop :=
  take 50 (merge_sort newest_first (filter (where_matches patterns) t)).

(** The nine columns of the search, as pandas reads them back. *)
Definition log_columns (r : stop) : record :=
  [("stop_id", VInt (stop_id r));
   ("stop_date", VStr (date_text (stop_date r)));
   ("stop_time", VStr (time_text (stop_time r)));
   ("country_name", VStr (country_name r));
   ("vehicle_number", text_cell (vehicle_number r));
   ("violation", VStr (violation r));
   ("stop_outcome", text_cell (stop_outcome r));
   ("is_arrested", bool_cell (is_arrested r));
   ("drugs_related_stop", bool_cell (drugs_related_stop r))].

Definition execute (q : statement) (t : table) : list record :=
  match q with
  | TopVehicles =>
      map (fun g => [("vehicle_number", text_cell g.1);
                     ("drug_stop_count", VInt g.2)]) (top_vehicles t)
  | ArrestRateByAgeGroup =>
      map (fun g => [("age_group", VStr g.1);
                     ("arrest_rate_percentage", VFloat g.2)])
          (arrest_rate_by_age_group t)
  | ViolationRates =>
      map (fun g => [("violation", VStr g.1);
                     ("search_rate", VFloat (search_rate g.2));
                     ("arrest_rate", VFloat (arrest_rate g.2));
                     ("combined_rate", VFloat (combined_rate g.2))])
          (violation_rates t)
  | LatestLogs patterns => map log_columns (latest_logs patterns t)
  end.

(** [fetch_data]: the rows of the result.  The table is read, never
    written.  An error of the engine would be shown and an empty frame
    returned; none of the four statements raises one. *)
Definition fetch_data (query_text : string) : ST table (option (list record)) :=
  fun t => (Ok (q ← read_statement query_text; Some (execute q t)), t).

(** The button of section 2: the text is looked up under the selected
    name, then run. *)
Definition run_analytics_query (query_selection : string)
  : ST table (option (list record)) :=
  selected_query ← lift (dict_getitem ANALYTICS_QUERIES query_selection);
  fetch_data selected_query.

(** Section 3: the search box. *)
Definition latest_logs_df (search_term : string)
  : ST table (option (list record)) :=
  fetch_data (final_query search_term).

(** *** Section 1: the form *)

(** The dictionary built from the fields of the form. *)
Definition new_log (stop_date : date) (stop_time : time)
  (country_name vehicle_number driver_gender : string) (driver_age : Z)
  (violation stop_duration : string)
  (search_conducted drugs_related_stop is_arrested : bool)
  (stop_outcome : string) : record :=
  [("stop_date", VDate stop_date);
   ("stop_time", VTime stop_time);
   ("country_name", VStr country_name);
   ("vehicle_number", VStr vehicle_number);
   ("driver_gender", VStr (substring 0 1 driver_gender));
   ("driver_age", VInt driver_age);
   ("violation", VStr violation);
   ("violation_raw", VStr violation);
   ("search_conducted", VBool search_conducted);
   ("drugs_related_stop", VBool drugs_related_stop);
   ("is_arrested", VBool is_arrested);
   ("stop_outcome", VStr stop_outcome);
   ("stop_duration", VStr stop_duration);
   ("driver_race", VStr "Unknown");
   ("search_type",
    VStr (if negb search_conducted then "None Conducted" else "Vehicle Search"))].

(** [pd.DataFrame([log_data])]: a frame of one row, labelled 0. *)
Definition frame_of_record (r : record) : DataFrame :=
  {| index := [0]; columns := map (fun kc => (kc.1, [kc.2])) r |}.

(** [log_new_stop]: the row is appended under the key SQLite gives; an
    error is shown, not raised. *)
Definition log_new_stop (log_data : record) : ST table bool :=
  fun t =>
    match to_sql (frame_of_record log_data) false t with
    | (Ok _, t') => (Ok true, t')
    | (Raise _, t') => (Ok false, t')
    end.

End app.

(** ** The statements of [preprocess_data] as functions on frames

    What each in-place statement does to the frame it is run on; the run
    lemmas below show that the statements on references compute these. *)

Definition fill_column (name : string) (v : cell) (df : DataFrame)
  : result DataFrame :=
  s ← getitem df name; Ok (setitem df name (fillna v s)).

Definition bool_column (name : string) (df : DataFrame) : result DataFrame :=
  s ← getitem df name; Ok (setitem df name (astype_bool s)).

Definition date_column `{Pandas} (df : DataFrame) : result DataFrame :=
  s ← getitem df "stop_date";
  ts ← to_datetime None s;
  Ok (setitem df "stop_date" (dt_date ts)).

Definition time_column `{Pandas} (format : option string) (df : DataFrame)
  : result DataFrame :=
  s ← getitem df "stop_time";
  ts ← to_datetime format s;
  Ok (setitem df "stop_time" (dt_time ts)).

Definition pruned (df : DataFrame) : DataFrame :=
  drop_columns ["driver_age_raw"] (dropna_all_columns df).

Definition cleaned `{Pandas} (format : option string) (df : DataFrame)
  : result DataFrame :=
  d ← fill_column "search_type" (VStr "None Conducted") (pruned df);
  d ← fill_column "vehicle_number" (VStr "Unknown") d;
  d ← bool_column "search_conducted" d;
  d ← bool_column "is_arrested" d;
  d ← bool_column "drugs_related_stop" d;
  d ← date_column d;
  time_column format d.

(** An in-place statement that computes [f] on the frame: the frame is
    replaced when [f] returns, and left as it is when [f] raises. *)
Definition in_place (f : DataFrame -> result DataFrame) (h : heap)
  (a b : DataFrame) : result unit * heap :=
  match f b with
  | Ok b' => (Ok tt, (h ++ [a; b'])%list)
  | Raise e => (Raise e, (h ++ [a; b])%list)
  end.

(** The shape the seven statements share: the column is read, a new
    one is computed from it, and written back under the same name. *)
Definition update_column (name : string) (f : Series -> result Series)
  (df : DataFrame) : result DataFrame :=
  s ← getitem df name; s' ← f s; Ok (setitem df name s').

(** The frame the seven statements leave, from the frame they start on
    and the seven columns they write. *)
Definition written (P : DataFrame) (st vn sc ia dr sd tm : Series) : DataFrame :=
  setitem (setitem (setitem (setitem (setitem (setitem (setitem P
    "search_type" st) "vehicle_number" vn) "search_conducted" sc)
    "is_arrested" ia) "drugs_related_stop" dr) "stop_date" sd) "stop_time" tm.

(** The accumulator of a key, if the key has one. *)
Fixpoint group_lookup {K A} `{EqDecision K} (k : K) (groups : list (K * A))
  : option A :=
  match groups with
  | [] => None
  | (k', a) :: rest => if decide (k' = k) then Some a else group_lookup k rest
  end.

(** ** Predicates of the specification *)

(** [s] begins with [t]. *)
Fixpoint starts_with (t s : string) : bool :=
  match t with
  | EmptyString => true
  | String a t' =>
      match s with
      | EmptyString => false
      | String b s' => Ascii.eqb a b && starts_with t' s'
      end
  end.

(** [t] occurs in [s] as a substring. *)
Fixpoint contains (t s : string) : bool :=
  starts_with t s ||
  match s with
  | EmptyString => false
  | String _ s' => contains t s'
  end.

(** The same, up to the case of ASCII letters. *)
Definition contains_nocase (t s : string) : bool :=
  contains (lower_string t) (lower_string s).

Fixpoint string_forall (P : ascii -> bool) (s : string) : bool :=
  match s with
  | EmptyString => true
  | String c s' => P c && string_forall P s'
  end.

(** A search term with none of the characters the query text gives a
    meaning to: the quote, the wildcards of LIKE, the colon and the
    backslash of [text()]. *)
Definition plain_char (c : ascii) : bool :=
  negb (Ascii.eqb c "'" || Ascii.eqb c "%" || Ascii.eqb c "_" ||
        Ascii.eqb c ":" || Ascii.eqb c "\").

(** A character LIKE reads as itself, and one the text of a literal can
    hold. *)
Definition literal_char (c : ascii) : bool :=
  negb (Ascii.eqb c "%" || Ascii.eqb c "_").

Definition quotable_char (c : ascii) : bool :=
  negb (Ascii.eqb c "'" || Ascii.eqb c ":" || Ascii.eqb c "\").

(** The patterns of the search for a term: none for the empty term. *)
Definition patterns_of (search_term : string) : option (string * string) :=
  if String.eqb search_term "" then None
  else Some ("%" ++ search_term ++ "%", "%" ++ search_term ++ "%").

Definition plain_term (term : string) : bool := string_forall plain_char term.

(** The row shows the term in its country name or its vehicle number. *)
Definition shows (term : string) (r : stop) : bool :=
  contains term (country_name r) ||
  match vehicle_number r with
  | Some v => contains term v
  | None => false
  end.

Definition shows_nocase (term : string) (r : stop) : bool :=
  contains_nocase term (country_name r) ||
  match vehicle_number r with
  | Some v => contains_nocase term v
  | None => false
  end.

(** The number of rows of a table that satisfy a condition. *)
Definition count_rows (P : stop -> Prop) `{!forall r, Decision (P r)}
  (t : table) : Z :=
  Z.of_nat (length (filter P t)).


(** Every column of that name holds missing values only (or there is no
    such column). *)
Definition all_missing (name : string) (df : DataFrame) : bool :=
  forallb (fun kc => negb (String.eqb kc.1 name) || forallb isna kc.2)
    (columns df).

(** The column is there and some cell of it is not missing. *)
Definition has_value (name : string) (df : DataFrame) : bool :=
  match lookup_column name (columns df) with
  | Some s => negb (forallb isna s)
  | None => false
  end.

Definition time_eqb (t1 t2 : time) : bool :=
  (hour t1 =? hour t2) && (minute t1 =? minute t2) &&
  (second t1 =? second t2) && (microsecond t1 =? microsecond t2).

(** The time of the cell, printed, is read back as that time (a cell
    that holds no time asks nothing). *)
Definition reads_back `{Pandas} (format : option string) (c : cell) : bool :=
  match c with
  | VTime t =>
      match parse_scalar format (VStr (isoformat t)) with
      | Ok (Some dt) => time_eqb dt.2 t
      | _ => false
      end
  | _ => true
  end.

Definition times_read_back `{Pandas} (format : option string) (df : DataFrame)
  : bool :=
  match lookup_column "stop_time" (columns df) with
  | Some s => forallb (reads_back format) s
  | None => true
  end.

(** The representations the coercion to boolean takes for false or for
    nothing: a missing value, [False], zero, the empty string. *)
Definition empty_zero_or_false (c : cell) : bool :=
  match c with
  | NaN | PyNone | NaT => true
  | VBool b => negb b
  | VInt n => n =? 0
  | VFloat q => Qnum q =? 0
  | VStr s => String.eqb s ""
  | VDate _ | VTime _ => false
  end.

(** ** A parser for the examples

    It reads the ISO date YYYY-MM-DD and the time HH:MM:SS, which every
    version of pandas reads the same way, and refuses every other
    scalar. *)

Definition digit_value (c : ascii) : option Z :=
  let n := nat_of_ascii c in
  if (48 <=? n)%nat && (n <=? 57)%nat then Some (Z.of_nat (n - 48)) else None.

Definition two_digits (a b : ascii) : option Z :=
  x ← digit_value a; y ← digit_value b; Some (10 * x + y).

Definition read_time (s : string) : option time :=
  match s with
  | String h1 (String h2 (String c1 (String m1 (String m2
      (String c2 (String s1 (String s2 EmptyString))))))) =>
      if Ascii.eqb c1 ":" && Ascii.eqb c2 ":" then
        h ← two_digits h1 h2;
        m ← two_digits m1 m2;
        s ← two_digits s1 s2;
        if (h <? 24) && (m <? 60) && (s <? 60) then Some (Time h m s 0)
        else None
      else None
  | _ => None
  end.

Definition read_date (s : string) : option date :=
  match s with
  | String y1 (String y2 (String y3 (String y4 (String c1 (String m1
      (String m2 (String c2 (String d1 (String d2 EmptyString))))))))) =>
      if Ascii.eqb c1 "-" && Ascii.eqb c2 "-" then
        a ← two_digits y1 y2;
        b ← two_digits y3 y4;
        m ← two_digits m1 m2;
        d ← two_digits d1 d2;
        if (1 <=? m) && (m <=? 12) && (1 <=? d) && (d <=? 31)
        then Some (Date (100 * a + b) m d)
        else None
      else None
  | _ => None
  end.

Definition iso_parse (format : option string) (c : cell)
  : result (option datetime) :=
  match c with
  | VStr s =>
      match format with
      | Some _ =>
          match read_time s with
          | Some t => Ok (Some (Date 1900 1 1, t))
          | None => Raise ValueError
          end
      | None =>
          match read_date s, read_time s with
          | Some d, _ => Ok (Some (d, midnight))
          | None, Some t => Ok (Some (Date 1900 1 1, t))
          | None, None => Raise ValueError
          end
      end
  | _ => Raise TypeError
  end.

Definition iso_pandas : Pandas := {| parse_scalar := iso_parse |}.

(** ** Example data *)

(** Two stops as the CSV gives them; the first had no search but names a
    search type, the second misses its search type and vehicle number. *)
Definition raw_columns : list (string * Series) :=
  [("stop_date", [VStr "2024-01-02"; VStr "2024-01-03"]);
   ("stop_time", [VStr "10:30:00"; VStr "23:05:59"]);
   ("country_name", [VStr "India"; VStr "India"]);
   ("driver_gender", [VStr "M"; VStr "F"]);
   ("driver_age_raw", [VInt 1990; VInt 2009]);
   ("driver_age", [VInt 34; VInt 15]);
   ("driver_race", [NaN; NaN]);
   ("violation_raw", [VStr "Speeding"; VStr "DUI"]);
   ("violation", [VStr "Speeding"; VStr "DUI"]);
   ("search_conducted", [VBool false; VBool true]);
   ("search_type", [VStr "Frisk"; NaN]);
   ("stop_outcome", [VStr "Warning"; VStr "Arrest"]);
   ("is_arrested", [VBool false; VInt 1]);
   ("stop_duration", [VStr "6-15 min"; VStr "30+ min"]);
   ("drugs_related_stop", [VBool false; VStr "True"]);
   ("vehicle_number", [VStr "RJ83PZ4441"; NaN])].

Definition raw_frame : DataFrame := process_data.read_csv raw_columns.

(** What the normalizers return on it. *)
Definition clean_frame : DataFrame :=
  {| index := [0; 1];
     columns :=
       [("stop_date", [VDate (Date 2024 1 2); VDate (Date 2024 1 3)]);
        ("stop_time", [VTime (Time 10 30 0 0); VTime (Time 23 5 59 0)]);
        ("country_name", [VStr "India"; VStr "India"]);
        ("driver_gender", [VStr "M"; VStr "F"]);
        ("driver_age", [VInt 34; VInt 15]);
        ("violation_raw", [VStr "Speeding"; VStr "DUI"]);
        ("violation", [VStr "Speeding"; VStr "DUI"]);
        ("search_conducted", [VBool false; VBool true]);
        ("search_type", [VStr "Frisk"; VStr "None Conducted"]);
        ("stop_outcome", [VStr "Warning"; VStr "Arrest"]);
        ("is_arrested", [VBool false; VBool true]);
        ("stop_duration", [VStr "6-15 min"; VStr "30+ min"]);
        ("drugs_related_stop", [VBool false; VBool true]);
        ("vehicle_number", [VStr "RJ83PZ4441"; VStr "Unknown"])] |}.

(** A frame whose search types are all missing. *)
Definition no_search_frame : DataFrame :=
  {| index := [0];
     columns :=
       [("stop_date", [VStr "2024-01-02"]);
        ("stop_time", [VStr "10:30:00"]);
        ("search_conducted", [VBool false]);
        ("search_type", [NaN]);
        ("is_arrested", [VBool false]);
        ("drugs_related_stop", [VBool false]);
        ("vehicle_number", [VStr "RJ83PZ4441"])] |}.

(** A stop of the table, by the fields the queries read. *)
Definition a_stop (id : Z) (country : string) (vehicle : option string)
  (age : option Z) (arrested : bool) : stop :=
  {| stop_id := id; stop_date := Date 2024 1 2; stop_time := Time 10 30 0 0;
     country_name := country; driver_gender := Some "M"; driver_age := age;
     driver_race := Some "Unknown"; violation_raw := Some "Speeding";
     violation := "Speeding"; search_conducted := false;
     search_type := Some "None Conducted"; stop_outcome := Some "Warning";
     is_arrested := arrested; stop_duration := Some "6-15 min";
     drugs_related_stop := false; vehicle_number := vehicle |}.

(** The ages of the example of the specification: 20 (arrested), 24
    (not arrested), 30 (arrested), 30 (arrested). *)
Definition four_ages : table :=
  [a_stop 0 "India" None (Some 20) true;
   a_stop 1 "India" None (Some 24) false;
   a_stop 2 "India" None (Some 30) true;
   a_stop 3 "India" None (Some 30) true].

(** ** The columns the statements ask for *)

(** The columns [preprocess_data] looks up before it parses a time, in
    the order of its statements. *)
Definition required_columns : list string :=
  ["search_type"; "vehicle_number"; "search_conducted"; "is_arrested";
   "drugs_related_stop"; "stop_date"].

(** The first of them that the frame does not have, or has with missing
    values only. *)
Definition first_missing (df : DataFrame) : option string :=
  find (fun name => all_missing name df) required_columns.

(** A date object, or [NaT]. *)
Definition date_or_NaT (c : cell) : bool :=
  match c with
  | NaT | VDate _ => true
  | _ => false
  end.

(** A time object, or [NaT]. *)
Definition time_or_NaT (c : cell) : bool :=
  match c with
  | NaT | VTime _ => true
  | _ => false
  end.

(** The raw example without its is_arrested column, and with a stop
    date that is no date. *)
Definition no_arrest_frame : DataFrame := drop_columns ["is_arrested"] raw_frame.

Definition bad_date_frame : DataFrame :=
  setitem raw_frame "stop_date" [VStr "2024-01-02"; VStr "yesterday"].

(** ** The row a form becomes *)

(** The row of the table for the fields of the form, under the key
    [id]: the gender is cut to its first letter, the raw violation is
    the violation, the race is Unknown and the search type follows from
    the check box. *)
Definition logged_stop (id : Z) (stop_date : date) (stop_time : time)
  (country_name vehicle_number driver_gender : string) (driver_age : Z)
  (violation stop_duration : string)
  (search_conducted drugs_related_stop is_arrested : bool)
  (stop_outcome : string) : stop :=
  {| stop_id := id;
     stop_date := stop_date;
     stop_time := stop_time;
     country_name := country_name;
     driver_gender := Some (substring 0 1 driver_gender);
     driver_age := Some driver_age;
     driver_race := Some "Unknown";
     violation_raw := Some violation;
     violation := violation;
     search_conducted := search_conducted;
     search_type :=
       Some (if search_conducted then "Vehicle Search" else "None Conducted");
     stop_outcome := Some stop_outcome;
     is_arrested := is_arrested;
     stop_duration := Some stop_duration;
     drugs_related_stop := drugs_related_stop;
     vehicle_number := Some vehicle_number |}.

(** The columns of the table declared NOT NULL, the key apart. *)
Definition not_null_columns : list string :=
  ["stop_date"; "stop_time"; "country_name"; "violation";
   "search_conducted"; "is_arrested"; "drugs_related_stop"].


(** * Proofs *)

(** ** Running the statements of [preprocess_data] *)

Lemma run_bind {S A B} (m : ST S A) (f : A -> ST S B) (h : S) :
  (m ≫= f) h =
  match m h with
  | (Ok a, h') => f a h'
  | (Raise e, h') => (Raise e, h')
  end.
Proof. reflexivity. Qed.

Lemma lookup_top (h : heap) (a b : DataFrame) :
  (h ++ [a; b])%list !! S (length h) = Some b.
Proof.
  rewrite lookup_app_r by lia.
  replace (S (length h) - length h)%nat with 1%nat by lia.
  reflexivity.
Qed.

Lemma insert_top (h : heap) (a b c : DataFrame) :
  <[S (length h) := c]> (h ++ [a; b])%list = (h ++ [a; c])%list.
Proof.
  rewrite insert_app_r_alt by lia.
  replace (S (length h) - length h)%nat with 1%nat by lia.
  reflexivity.
Qed.

Lemma run_dropna (h : heap) (l : ref) (X : DataFrame) :
  h !! l = Some X ->
  dropna l h = (Ok (length h), (h ++ [dropna_all_columns X])%list).
Proof.
  intros Hl. unfold dropna. rewrite run_bind. unfold deref. rewrite Hl.
  reflexivity.
Qed.

Lemma run_drop (h : heap) (a : DataFrame) (names : list string) :
  drop (length h) names (h ++ [a])%list =
  (Ok (S (length h)), (h ++ [a; drop_columns names a])%list).
Proof.
  unfold drop. rewrite run_bind. unfold deref.
  rewrite lookup_app_r by lia. rewrite Nat.sub_diag. simpl.
  unfold new. rewrite length_app. simpl.
  rewrite <- app_assoc. simpl. do 2 f_equal. f_equal. lia.
Qed.

Lemma run_get_column (h : heap) (a b : DataFrame) (name : string) :
  get_column (S (length h)) name (h ++ [a; b])%list =
  (getitem b name, (h ++ [a; b])%list).
Proof.
  unfold get_column. rewrite run_bind. unfold deref.
  rewrite lookup_top. reflexivity.
Qed.

Lemma run_set_column (h : heap) (a b : DataFrame) (name : string) (s : Series) :
  set_column (S (length h)) name s (h ++ [a; b])%list =
  (Ok tt, (h ++ [a; setitem b name s])%list).
Proof.
  unfold set_column. rewrite run_bind. unfold deref.
  rewrite lookup_top. unfold store. rewrite insert_top. reflexivity.
Qed.

Lemma run_fillna_inplace (h : heap) (a b : DataFrame) (name : string) (v : cell) :
  fillna_inplace (S (length h)) name v (h ++ [a; b])%list =
  in_place (fill_column name v) h a b.
Proof.
  unfold fillna_inplace, in_place, fill_column.
  rewrite run_bind, run_get_column.
  destruct (getitem b name) as [s|e]; simpl; [|reflexivity].
  apply run_set_column.
Qed.

Lemma run_astype_bool (h : heap) (a b : DataFrame) (col : string) :
  (s ← get_column (S (length h)) col;
   set_column (S (length h)) col (astype_bool s)) (h ++ [a; b])%list =
  in_place (bool_column col) h a b.
Proof.
  unfold in_place, bool_column.
  rewrite run_bind, run_get_column.
  destruct (getitem b col) as [s|e]; simpl; [|reflexivity].
  apply run_set_column.
Qed.

Lemma run_date_column `{Pandas} {A} (k : M A) (h : heap) (a b : DataFrame) :
  (s ← get_column (S (length h)) "stop_date";
   ts ← lift (to_datetime None s);
   _ ← set_column (S (length h)) "stop_date" (dt_date ts);
   k) (h ++ [a; b])%list =
  match date_column b with
  | Ok b' => k (h ++ [a; b'])%list
  | Raise e => (Raise e, (h ++ [a; b])%list)
  end.
Proof.
  unfold date_column.
  rewrite run_bind, run_get_column.
  destruct (getitem b "stop_date") as [s|e]; simpl; [|reflexivity].
  rewrite run_bind. unfold lift.
  destruct (to_datetime None s) as [ts|e]; simpl; [|reflexivity].
  rewrite run_bind, run_set_column. reflexivity.
Qed.

Lemma run_time_column `{Pandas} {A} (format : option string) (k : M A)
  (h : heap) (a b : DataFrame) :
  (s ← get_column (S (length h)) "stop_time";
   ts ← lift (to_datetime format s);
   _ ← set_column (S (length h)) "stop_time" (dt_time ts);
   k) (h ++ [a; b])%list =
  match time_column format b with
  | Ok b' => k (h ++ [a; b'])%list
  | Raise e => (Raise e, (h ++ [a; b])%list)
  end.
Proof.
  unfold time_column.
  rewrite run_bind, run_get_column.
  destruct (getitem b "stop_time") as [s|e]; simpl; [|reflexivity].
  rewrite run_bind. unfold lift.
  destruct (to_datetime format s) as [ts|e]; simpl; [|reflexivity].
  rewrite run_bind, run_set_column. reflexivity.
Qed.

(** One in-place statement of the body: either it raises, and so does
    the whole, or the run goes on with the new frame. *)
Ltac step_in_place lem :=
  first [rewrite run_bind, lem | rewrite lem]; unfold in_place;
  match goal with
  | |- context [match ?f ?b with Ok _ => _ | Raise _ => _ end] =>
      let E := fresh "E" in
      destruct (f b) eqn:E; simpl;
      [ cbv beta | eexists; split; [reflexivity | intros ? [=]] ]
  end.

(** The run of [preprocess_data] on a heap: two frames are allocated
    after the objects of the heap, the one [dropna] returns and the one
    [drop] returns; the second is changed in place and is the frame
    returned; the result is that of [cleaned]. *)
Lemma run_preprocess_data `{Pandas} (format : option string) (h : heap)
  (l : ref) (X : DataFrame) :
  h !! l = Some X ->
  exists Z,
    preprocess_data_with format l h =
      ((fun _ => S (length h)) <$> cleaned format X,
       (h ++ [dropna_all_columns X; Z])%list) /\
    (forall Y, cleaned format X = Ok Y -> Z = Y).
Proof.
  intros Hl. unfold preprocess_data_with, cleaned.
  rewrite run_bind, (run_dropna _ _ _ Hl). cbv beta.
  rewrite run_bind, run_drop. cbv beta.
  fold (pruned X).
  step_in_place run_fillna_inplace.
  step_in_place run_fillna_inplace.
  rewrite run_bind. simpl for_each.
  step_in_place run_astype_bool.
  step_in_place run_astype_bool.
  step_in_place run_astype_bool.
  change ((mret tt : M unit) (h ++ [dropna_all_columns X; a3])%list)
    with (Ok tt, (h ++ [dropna_all_columns X; a3])%list).
  cbv iota beta.
  rewrite run_date_column.
  destruct (date_column a3) as [a4|e] eqn:E4; simpl;
    [|eexists; split; [reflexivity | intros ? [=]]].
  rewrite run_time_column.
  destruct (time_column format a4) as [a5|e] eqn:E5; simpl;
    [|eexists; split; [reflexivity | intros ? [=]]].
  eexists; split; [reflexivity|]. intros Y [= ->]. reflexivity.
Qed.

Lemma run_preprocess_dangling `{Pandas} (format : option string) (h : heap)
  (l : ref) :
  h !! l = None ->
  preprocess_data_with format l h = (Raise ReferenceError, h).
Proof.
  intros Hl. unfold preprocess_data_with, dropna, deref.
  rewrite !run_bind, Hl. reflexivity.
Qed.

(** The frame [preprocess_data] returns is the composition of its
    statements on the raw frame. *)
Lemma returned_cleaned `{Pandas} (format : option string) (X : DataFrame) :
  returned_frame (preprocess_data_with format 0%nat [X]) = cleaned format X.
Proof.
  destruct (run_preprocess_data format [X] 0%nat X eq_refl) as (Z & -> & HZ).
  destruct (cleaned format X) as [Y|e]; simpl; [|reflexivity].
  rewrite (HZ Y eq_refl). reflexivity.
Qed.

(** ** Columns of a frame *)

Lemma string_eqb_refl (s : string) : String.eqb s s = true.
Proof. apply String.eqb_refl. Qed.

Lemma string_eqb_ne (s t : string) : s <> t -> String.eqb s t = false.
Proof. intros Hne. apply String.eqb_neq. exact Hne. Qed.

Lemma lookup_assign_eq (name : string) (s : Series) cols :
  lookup_column name (assign_column name s cols) = Some s.
Proof.
  induction cols as [|[k old] rest IH]; simpl.
  - rewrite string_eqb_refl. reflexivity.
  - destruct (String.eqb k name) eqn:E; simpl; rewrite E; auto.
Qed.

Lemma lookup_assign_ne (name k : string) (s : Series) cols :
  name <> k ->
  lookup_column k (assign_column name s cols) = lookup_column k cols.
Proof.
  intros Hne. induction cols as [|[k' old] rest IH]; simpl.
  - rewrite string_eqb_ne by exact Hne. reflexivity.
  - destruct (String.eqb k' name) eqn:E; simpl.
    + apply String.eqb_eq in E. subst k'.
      rewrite string_eqb_ne by exact Hne. reflexivity.
    + destruct (String.eqb k' k); auto.
Qed.

Lemma assign_same (name : string) (s : Series) cols :
  lookup_column name cols = Some s -> assign_column name s cols = cols.
Proof.
  induction cols as [|[k old] rest IH]; simpl; [discriminate|].
  destruct (String.eqb k name) eqn:E.
  - intros [= ->]. reflexivity.
  - intros Hl. rewrite IH by exact Hl. reflexivity.
Qed.

Lemma lookup_column_elem (name : string) (s : Series) cols :
  lookup_column name cols = Some s -> (name, s) ∈ cols.
Proof.
  induction cols as [|[k old] rest IH]; simpl; [discriminate|].
  destruct (String.eqb k name) eqn:E.
  - apply String.eqb_eq in E. subst k. intros [= ->]. left.
  - intros Hl. right. auto.
Qed.

Lemma Forall_assign (P : string * Series -> Prop) (name : string)
  (s : Series) cols :
  Forall P cols -> P (name, s) -> Forall P (assign_column name s cols).
Proof.
  intros Hall Hs. induction Hall as [|[k old] rest Hk Hrest IH]; simpl.
  - repeat constructor. exact Hs.
  - destruct (String.eqb k name) eqn:E.
    + apply String.eqb_eq in E. subst k. constructor; assumption.
    + constructor; assumption.
Qed.

Lemma getitem_Ok (df : DataFrame) (name : string) (s : Series) :
  getitem df name = Ok s <-> lookup_column name (columns df) = Some s.
Proof.
  unfold getitem. destruct (lookup_column name (columns df)); split;
    intros [=]; subst; reflexivity.
Qed.

Lemma getitem_setitem_eq (df : DataFrame) (name : string) (s : Series) :
  getitem (setitem df name s) name = Ok s.
Proof. unfold getitem, setitem. simpl. rewrite lookup_assign_eq. reflexivity. Qed.

Lemma getitem_setitem_ne (df : DataFrame) (name k : string) (s : Series) :
  name <> k -> getitem (setitem df name s) k = getitem df k.
Proof.
  intros Hne. unfold getitem, setitem. simpl.
  rewrite lookup_assign_ne by exact Hne. reflexivity.
Qed.

Lemma setitem_same (df : DataFrame) (name : string) (s : Series) :
  getitem df name = Ok s -> setitem df name s = df.
Proof.
  intros Hg. apply getitem_Ok in Hg. destruct df as [idx cols].
  unfold setitem. simpl in *. rewrite assign_same by exact Hg. reflexivity.
Qed.

Lemma getitem_elem (df : DataFrame) (name : string) (s : Series) :
  getitem df name = Ok s -> (name, s) ∈ columns df.
Proof. intros Hg. apply lookup_column_elem, getitem_Ok, Hg. Qed.

(** *** One statement *)

Lemma update_column_inv name f (d d' : DataFrame) :
  update_column name f d = Ok d' ->
  exists s s', getitem d name = Ok s /\ f s = Ok s' /\ d' = setitem d name s'.
Proof.
  unfold update_column. destruct (getitem d name) as [s|e]; simpl; [|discriminate].
  destruct (f s) as [s'|e] eqn:Ef; simpl; [|discriminate].
  intros [= <-]. exists s, s'. auto.
Qed.

Lemma update_column_same name f (d : DataFrame) (s : Series) :
  getitem d name = Ok s -> f s = Ok s -> update_column name f d = Ok d.
Proof.
  intros Hg Hf. unfold update_column. rewrite Hg. simpl. rewrite Hf. simpl.
  rewrite setitem_same by exact Hg. reflexivity.
Qed.

Lemma fill_column_update name v :
  fill_column name v = update_column name (fun s => Ok (fillna v s)).
Proof. reflexivity. Qed.

Lemma bool_column_update name :
  bool_column name = update_column name (fun s => Ok (astype_bool s)).
Proof. reflexivity. Qed.

Lemma date_column_update `{Pandas} (df : DataFrame) :
  date_column df =
  update_column "stop_date" (fun s => dt_date <$> to_datetime None s) df.
Proof.
  unfold date_column, update_column.
  destruct (getitem df "stop_date") as [s|e]; simpl; [|reflexivity].
  destruct (to_datetime None s); reflexivity.
Qed.

Lemma time_column_update `{Pandas} (format : option string) (df : DataFrame) :
  time_column format df =
  update_column "stop_time" (fun s => dt_time <$> to_datetime format s) df.
Proof.
  unfold time_column, update_column.
  destruct (getitem df "stop_time") as [s|e]; simpl; [|reflexivity].
  destruct (to_datetime format s); reflexivity.
Qed.

(** *** The seven statements together *)

Ltac names_differ := let E := fresh in intros E; discriminate E.

Lemma getitem_written (P : DataFrame) (st vn sc ia dr sd tm : Series) :
  let Y := written P st vn sc ia dr sd tm in
  getitem Y "search_type" = Ok st /\
  getitem Y "vehicle_number" = Ok vn /\
  getitem Y "search_conducted" = Ok sc /\
  getitem Y "is_arrested" = Ok ia /\
  getitem Y "drugs_related_stop" = Ok dr /\
  getitem Y "stop_date" = Ok sd /\
  getitem Y "stop_time" = Ok tm.
Proof.
  unfold written. cbv zeta.
  repeat split;
    repeat first [ apply getitem_setitem_eq
                 | rewrite getitem_setitem_ne by names_differ ].
Qed.

Lemma Forall_written (Q : string * Series -> Prop) (P : DataFrame)
  (st vn sc ia dr sd tm : Series) :
  Forall Q (columns P) ->
  Q ("search_type", st) -> Q ("vehicle_number", vn) ->
  Q ("search_conducted", sc) -> Q ("is_arrested", ia) ->
  Q ("drugs_related_stop", dr) -> Q ("stop_date", sd) -> Q ("stop_time", tm) ->
  Forall Q (columns (written P st vn sc ia dr sd tm)).
Proof.
  intros. unfold written, setitem. simpl.
  repeat apply Forall_assign; assumption.
Qed.

(** What a successful run has read and written. *)
Lemma cleaned_inv `{Pandas} (format : option string) (X Y : DataFrame) :
  cleaned format X = Ok Y ->
  exists st vn sc ia dr sd tm ds ts,
    getitem (pruned X) "search_type" = Ok st /\
    getitem (pruned X) "vehicle_number" = Ok vn /\
    getitem (pruned X) "search_conducted" = Ok sc /\
    getitem (pruned X) "is_arrested" = Ok ia /\
    getitem (pruned X) "drugs_related_stop" = Ok dr /\
    getitem (pruned X) "stop_date" = Ok sd /\
    getitem (pruned X) "stop_time" = Ok tm /\
    to_datetime None sd = Ok ds /\
    to_datetime format tm = Ok ts /\
    Y = written (pruned X)
          (fillna (VStr "None Conducted") st) (fillna (VStr "Unknown") vn)
          (astype_bool sc) (astype_bool ia) (astype_bool dr)
          (dt_date ds) (dt_time ts).
Proof.
  unfold cleaned. intros Hc.
  destruct (fill_column "search_type" _ (pruned X)) as [d1|] eqn:E1; [|discriminate].
  simpl in Hc.
  destruct (fill_column "vehicle_number" _ d1) as [d2|] eqn:E2; [|discriminate].
  simpl in Hc.
  destruct (bool_column "search_conducted" d2) as [d3|] eqn:E3; [|discriminate].
  simpl in Hc.
  destruct (bool_column "is_arrested" d3) as [d4|] eqn:E4; [|discriminate].
  simpl in Hc.
  destruct (bool_column "drugs_related_stop" d4) as [d5|] eqn:E5; [|discriminate].
  simpl in Hc.
  destruct (date_column d5) as [d6|] eqn:E6; [|discriminate].
  simpl in Hc.
  rewrite fill_column_update in E1, E2. rewrite bool_column_update in E3, E4, E5.
  rewrite date_column_update in E6. rewrite time_column_update in Hc.
  apply update_column_inv in E1 as (st & st' & G1 & [= <-] & ->).
  apply update_column_inv in E2 as (vn & vn' & G2 & [= <-] & ->).
  apply update_column_inv in E3 as (sc & sc' & G3 & [= <-] & ->).
  apply update_column_inv in E4 as (ia & ia' & G4 & [= <-] & ->).
  apply update_column_inv in E5 as (dr & dr' & G5 & [= <-] & ->).
  apply update_column_inv in E6 as (sd & sd' & G6 & F6 & ->).
  apply update_column_inv in Hc as (tm & tm' & G7 & F7 & ->).
  destruct (to_datetime None sd) as [ds|] eqn:T6; [|discriminate].
  destruct (to_datetime format tm) as [ts|] eqn:T7; [|discriminate].
  simpl in F6, F7. injection F6 as <-. injection F7 as <-.
  repeat rewrite getitem_setitem_ne in G7 by names_differ.
  repeat rewrite getitem_setitem_ne in G6 by names_differ.
  repeat rewrite getitem_setitem_ne in G5 by names_differ.
  repeat rewrite getitem_setitem_ne in G4 by names_differ.
  repeat rewrite getitem_setitem_ne in G3 by names_differ.
  repeat rewrite getitem_setitem_ne in G2 by names_differ.
  exists st, vn, sc, ia, dr, sd, tm, ds, ts.
  repeat split; assumption || reflexivity.
Qed.

(** Pruning keeps a column as it is, and only columns of the frame. *)
Lemma getitem_pruned (X : DataFrame) (name : string) (s : Series) :
  getitem (pruned X) name = Ok s ->
  (name, s) ∈ columns X /\ forallb isna s = false /\ name <> "driver_age_raw".
Proof.
  intros Hg. apply getitem_elem in Hg.
  unfold pruned, drop_columns, dropna_all_columns in Hg. simpl in Hg.
  apply list_elem_of_filter in Hg as [Hn Hg].
  apply list_elem_of_filter in Hg as [Hna Hg].
  simpl in *. repeat split.
  - exact Hg.
  - destruct (forallb isna s); [destruct Hna|reflexivity].
  - intros ->. apply negb_True in Hn. apply Hn, bool_decide_pack. left.
Qed.

Lemma data_cleaning_normalize `{Pandas} (X : DataFrame) :
  data_cleaning.normalize X = cleaned (Some "%H:%M:%S") X.
Proof. apply returned_cleaned. Qed.

Lemma process_data_normalize `{Pandas} (X : DataFrame) :
  process_data.normalize X = cleaned None X.
Proof. apply returned_cleaned. Qed.

(** ** The heap after a run *)

Lemma preprocess_data_extends `{Pandas} (format : option string) (h : heap)
  (df : ref) :
  h `prefix_of` (preprocess_data_with format df h).2.
Proof.
  destruct (h !! df) as [X|] eqn:Hdf.
  - destruct (run_preprocess_data format h df X Hdf) as (Z & -> & _).
    simpl. eexists. reflexivity.
  - rewrite run_preprocess_dangling by exact Hdf. reflexivity.
Qed.

Lemma prefix_lookup_Some (h h' : heap) (l : ref) (X : DataFrame) :
  h `prefix_of` h' -> h !! l = Some X -> h' !! l = Some X.
Proof.
  intros [k ->] Hl. apply lookup_app_l_Some. exact Hl.
Qed.

(** C9. The raw frame passed to [preprocess_data] is the same object
    with the same content after the call, in both scripts, whether the
    call returns or raises: the call allocates its frames after the
    objects of the heap and writes to none of those. *)
Theorem preprocess_data_leaves_input `{Pandas} (h : heap) (df : ref)
  (raw : DataFrame) :
  h !! df = Some raw ->
  (data_cleaning.preprocess_data df h).2 !! df = Some raw /\
  (process_data.preprocess_data df h).2 !! df = Some raw /\
  h `prefix_of` (data_cleaning.preprocess_data df h).2 /\
  h `prefix_of` (process_data.preprocess_data df h).2.
Proof.
  intros Hdf.
  pose proof (preprocess_data_extends (Some "%H:%M:%S") h df) as P1.
  pose proof (preprocess_data_extends None h df) as P2.
  repeat split; try assumption.
  - exact (prefix_lookup_Some _ _ _ _ P1 Hdf).
  - exact (prefix_lookup_Some _ _ _ _ P2 Hdf).
Qed.

Lemma preprocess_data_leaves_input_witness :
  [raw_frame] !! 0%nat = Some raw_frame /\
  (@data_cleaning.preprocess_data iso_pandas 0%nat [raw_frame]).2 !! 0%nat
    = Some raw_frame.
Proof.
  split; [reflexivity|].
  apply (@preprocess_data_leaves_input iso_pandas [raw_frame] 0%nat raw_frame).
  reflexivity.
Defined.

(** ** A column with no value *)

Lemma getitem_cases (df : DataFrame) (name : string) :
  (exists s, getitem df name = Ok s) \/ getitem df name = Raise (KeyError name).
Proof.
  unfold getitem. destruct (lookup_column name (columns df)); eauto.
Qed.

Lemma all_missing_elem (name : string) (df : DataFrame) (s : Series) :
  all_missing name df = true -> (name, s) ∈ columns df -> forallb isna s = true.
Proof.
  unfold all_missing. rewrite forallb_forall. intros Hall Hin.
  apply list_elem_of_In in Hin. specialize (Hall _ Hin). simpl in Hall.
  rewrite String.eqb_refl in Hall. exact Hall.
Qed.

Lemma getitem_pruned_missing (name : string) (X : DataFrame) :
  all_missing name X = true ->
  getitem (pruned X) name = Raise (KeyError name).
Proof.
  intros Hall. destruct (getitem_cases (pruned X) name) as [[s Hs]|Hr]; [|exact Hr].
  apply getitem_pruned in Hs as (Hin & Hna & _).
  rewrite (all_missing_elem _ _ _ Hall Hin) in Hna. discriminate.
Qed.

Lemma cleaned_raises_on_missing `{Pandas} (format : option string)
  (X : DataFrame) :
  all_missing "search_type" X = true \/ all_missing "vehicle_number" X = true ->
  cleaned format X = Raise (KeyError "search_type") \/
  cleaned format X = Raise (KeyError "vehicle_number").
Proof.
  intros Hm. unfold cleaned, fill_column.
  destruct (getitem_cases (pruned X) "search_type") as [[st Hst]|Hst];
    rewrite Hst; simpl; [|left; reflexivity].
  destruct Hm as [Hm|Hm].
  - rewrite getitem_pruned_missing in Hst by exact Hm. discriminate.
  - right. rewrite getitem_setitem_ne by names_differ.
    rewrite getitem_pruned_missing by exact Hm. reflexivity.
Qed.

(** C10. When every search type of the raw frame is missing, or every
    vehicle number, [preprocess_data] raises [KeyError] on that column
    in both scripts: [dropna] has removed the column and the [fillna]
    statement looks it up. *)
Theorem normalize_raises_on_missing_column `{Pandas} (raw : DataFrame) :
  all_missing "search_type" raw = true \/
  all_missing "vehicle_number" raw = true ->
  (data_cleaning.normalize raw = Raise (KeyError "search_type") \/
   data_cleaning.normalize raw = Raise (KeyError "vehicle_number")) /\
  (process_data.normalize raw = Raise (KeyError "search_type") \/
   process_data.normalize raw = Raise (KeyError "vehicle_number")).
Proof.
  intros Hm. rewrite data_cleaning_normalize, process_data_normalize.
  split; apply cleaned_raises_on_missing; exact Hm.
Qed.

Lemma normalize_raises_on_missing_column_witness :
  all_missing "search_type" no_search_frame = true /\
  (@process_data.normalize iso_pandas no_search_frame
     = Raise (KeyError "search_type") \/
   @process_data.normalize iso_pandas no_search_frame
     = Raise (KeyError "vehicle_number")).
Proof.
  split; [reflexivity|].
  apply (@normalize_raises_on_missing_column iso_pandas no_search_frame).
  left. reflexivity.
Defined.

(** ** The cells the statements write *)

Lemma lookup_map {A B} (f : A -> B) (l : list A) (i : nat) :
  map f l !! i = f <$> l !! i.
Proof.
  revert i. induction l as [|a l IH]; intros [|i]; simpl; auto.
Qed.

Lemma py_bool_true (c : cell) : empty_zero_or_false c = false -> py_bool c = true.
Proof.
  destruct c; simpl; intros Hc; try reflexivity; try discriminate;
    try (rewrite Hc; reflexivity).
  destruct b; [reflexivity|discriminate].
Qed.

Lemma normalize_cases `{Pandas} (raw clean : DataFrame) :
  data_cleaning.normalize raw = Ok clean \/ process_data.normalize raw = Ok clean ->
  exists format, cleaned format raw = Ok clean.
Proof.
  rewrite data_cleaning_normalize, process_data_normalize.
  intros [Hc|Hc]; eauto.
Qed.

(** C5. After either normalizer has returned, each of the columns
    search_conducted, is_arrested and drugs_related_stop is the column of
    that name of the raw frame with every cell replaced by a boolean,
    never by a missing value; and the boolean is true for every cell
    that is not a missing value, [False], a zero or the empty string
    (so it is true for the string False as well). *)
Theorem boolean_columns_are_booleans `{Pandas} (raw clean : DataFrame)
  (col : string) :
  data_cleaning.normalize raw = Ok clean \/ process_data.normalize raw = Ok clean ->
  col ∈ ["search_conducted"; "is_arrested"; "drugs_related_stop"] ->
  exists s s',
    (col, s) ∈ columns raw /\ getitem clean col = Ok s' /\
    length s' = length s /\
    forall i c, s !! i = Some c ->
      exists b, s' !! i = Some (VBool b) /\
                (empty_zero_or_false c = false -> b = true).
Proof.
  intros Hn Hcol. apply normalize_cases in Hn as [format Hc].
  apply cleaned_inv in Hc
    as (st & vn & sc & ia & dr & sd & tm & ds & ts &
        Gst & Gvn & Gsc & Gia & Gdr & Gsd & Gtm & Tds & Tts & ->).
  match goal with
  | |- context [written ?P ?a ?b ?c ?d ?e ?f ?g] =>
      destruct (getitem_written P a b c d e f g) as (_ & _ & Wsc & Wia & Wdr & _)
  end.
  assert (Hcells : forall s : Series, forall i c, s !! i = Some c ->
            exists b, astype_bool s !! i = Some (VBool b) /\
                      (empty_zero_or_false c = false -> b = true)).
  { intros s i c Hi. exists (py_bool c). split.
    - unfold astype_bool. rewrite lookup_map, Hi. reflexivity.
    - apply py_bool_true. }
  assert (Hlen : forall s : Series, length (astype_bool s) = length s).
  { intros s. unfold astype_bool. apply length_map. }
  apply getitem_pruned in Gsc as (Isc & _).
  apply getitem_pruned in Gia as (Iia & _).
  apply getitem_pruned in Gdr as (Idr & _).
  repeat (apply elem_of_cons in Hcol as [->|Hcol]); [| | |inversion Hcol].
  - exists sc, (astype_bool sc). auto.
  - exists ia, (astype_bool ia). auto.
  - exists dr, (astype_bool dr). auto.
Qed.

Lemma boolean_columns_are_booleans_witness :
  (@data_cleaning.normalize iso_pandas raw_frame = Ok clean_frame \/
   @process_data.normalize iso_pandas raw_frame = Ok clean_frame) /\
  "is_arrested" ∈ ["search_conducted"; "is_arrested"; "drugs_related_stop"] /\
  exists s s',
    ("is_arrested", s) ∈ columns raw_frame /\
    getitem clean_frame "is_arrested" = Ok s' /\
    length s' = length s /\
    forall i c, s !! i = Some c ->
      exists b, s' !! i = Some (VBool b) /\
                (empty_zero_or_false c = false -> b = true).
Proof.
  assert (Hn : @data_cleaning.normalize iso_pandas raw_frame = Ok clean_frame \/
               @process_data.normalize iso_pandas raw_frame = Ok clean_frame)
    by (left; vm_compute; reflexivity).
  assert (Hc : "is_arrested" ∈ ["search_conducted"; "is_arrested"; "drugs_related_stop"])
    by (right; left).
  split; [exact Hn|]. split; [exact Hc|].
  exact (@boolean_columns_are_booleans iso_pandas raw_frame clean_frame
           "is_arrested" Hn Hc).
Defined.

(** C2, as the code has it.  After either normalizer has returned, the
    search_type column is the one of the raw frame with its missing
    cells, and only those, replaced by None Conducted: a search type
    that is present is kept, whatever search_conducted says.  The form
    of [app.py], which has no search type of its own, writes None
    Conducted when search_conducted is false. *)
Theorem search_type_filled_where_missing `{Pandas} (raw clean : DataFrame) :
  data_cleaning.normalize raw = Ok clean \/ process_data.normalize raw = Ok clean ->
  (exists s s',
     ("search_type", s) ∈ columns raw /\ getitem clean "search_type" = Ok s' /\
     length s' = length s /\
     forall i c, s !! i = Some c ->
       s' !! i = Some (if isna c then VStr "None Conducted" else c)) /\
  (forall stop_date stop_time country_name vehicle_number driver_gender
          driver_age violation stop_duration drugs_related_stop is_arrested
          stop_outcome,
     field "search_type"
       (app.new_log stop_date stop_time country_name vehicle_number
          driver_gender driver_age violation stop_duration false
          drugs_related_stop is_arrested stop_outcome)
     = VStr "None Conducted").
Proof.
  intros Hn. split; [|reflexivity].
  apply normalize_cases in Hn as [format Hc].
  apply cleaned_inv in Hc
    as (st & vn & sc & ia & dr & sd & tm & ds & ts &
        Gst & Gvn & Gsc & Gia & Gdr & Gsd & Gtm & Tds & Tts & ->).
  match goal with
  | |- context [written ?P ?a ?b ?c ?d ?e ?f ?g] =>
      destruct (getitem_written P a b c d e f g) as (Wst & _)
  end.
  apply getitem_pruned in Gst as (Ist & _).
  exists st, (fillna (VStr "None Conducted") st).
  split; [exact Ist|]. split; [exact Wst|]. split.
  - unfold fillna. apply length_map.
  - intros i c Hi. unfold fillna. rewrite lookup_map, Hi. reflexivity.
Qed.

Lemma search_type_filled_where_missing_witness :
  (@data_cleaning.normalize iso_pandas raw_frame = Ok clean_frame \/
   @process_data.normalize iso_pandas raw_frame = Ok clean_frame) /\
  exists s s',
    ("search_type", s) ∈ columns raw_frame /\
    getitem clean_frame "search_type" = Ok s' /\
    length s' = length s /\
    forall i c, s !! i = Some c ->
      s' !! i = Some (if isna c then VStr "None Conducted" else c).
Proof.
  assert (Hn : @data_cleaning.normalize iso_pandas raw_frame = Ok clean_frame \/
               @process_data.normalize iso_pandas raw_frame = Ok clean_frame)
    by (right; vm_compute; reflexivity).
  split; [exact Hn|].
  exact (proj1 (@search_type_filled_where_missing iso_pandas raw_frame
                  clean_frame Hn)).
Defined.

(** C2, as the specification states it, fails: the first row of the
    example has search_conducted false and the search type Frisk, and
    both normalizers return it with the search type Frisk. *)
Lemma search_type_not_forced :
  @data_cleaning.normalize iso_pandas raw_frame = Ok clean_frame /\
  @process_data.normalize iso_pandas raw_frame = Ok clean_frame /\
  field "search_conducted" (iloc raw_frame 0) = VBool false /\
  field "search_conducted" (iloc clean_frame 0) = VBool false /\
  field "search_type" (iloc clean_frame 0) = VStr "Frisk" /\
  field "search_type" (iloc clean_frame 0) <> VStr "None Conducted".
Proof.
  repeat split; try (vm_compute; reflexivity).
  vm_compute. discriminate.
Qed.

(** ** Running the normalizer on its own result *)

Lemma fillna_fillna (v : cell) (s : Series) :
  isna v = false -> fillna v (fillna v s) = fillna v s.
Proof.
  intros Hv. unfold fillna. rewrite map_map. apply map_ext. intros c.
  destruct (isna c) eqn:Hc; [rewrite Hv|rewrite Hc]; reflexivity.
Qed.

Lemma astype_bool_astype_bool (s : Series) :
  astype_bool (astype_bool s) = astype_bool s.
Proof. unfold astype_bool. rewrite map_map. reflexivity. Qed.

Lemma fillna_has_value (v : cell) (s : Series) :
  isna v = false -> forallb isna s = false -> forallb isna (fillna v s) = false.
Proof.
  intros Hv. induction s as [|c s IH]; simpl; [discriminate|].
  destruct (isna c) eqn:Hc; simpl.
  - intros _. rewrite Hv. reflexivity.
  - intros _. rewrite Hc. reflexivity.
Qed.

Lemma astype_bool_has_value (s : Series) :
  forallb isna s = false -> forallb isna (astype_bool s) = false.
Proof. destruct s; [discriminate|reflexivity]. Qed.

(** Dates are converted back to themselves. *)
Lemma to_datetime_dates `{Pandas} (ds : list (option datetime)) :
  exists ds', to_datetime None (dt_date ds) = Ok ds' /\ dt_date ds' = dt_date ds.
Proof.
  induction ds as [|[dt|] ds (ds' & Hds & Hdd)]; simpl.
  - exists []. split; reflexivity.
  - rewrite Hds. simpl. eexists. split; [reflexivity|]. simpl. rewrite Hdd.
    reflexivity.
  - rewrite Hds. simpl. eexists. split; [reflexivity|]. simpl. rewrite Hdd.
    reflexivity.
Qed.

Lemma time_eqb_eq (t1 t2 : time) : time_eqb t1 t2 = true -> t1 = t2.
Proof.
  unfold time_eqb. destruct t1, t2. simpl.
  rewrite !andb_true_iff, !Z.eqb_eq. intros [[[-> ->] ->] ->]. reflexivity.
Qed.

(** Times are converted back to themselves when a format is given and
    each of them, printed, is read back as itself. *)
Lemma to_datetime_times `{Pandas} (format : string)
  (ts : list (option datetime)) :
  forallb (reads_back (Some format)) (dt_time ts) = true ->
  exists ts', to_datetime (Some format) (dt_time ts) = Ok ts' /\
              dt_time ts' = dt_time ts.
Proof.
  induction ts as [|[dt|] ts IH]; simpl.
  - exists []. split; reflexivity.
  - rewrite andb_true_iff. intros [Hr Hrest].
    destruct (IH Hrest) as (ts' & Hts & Htt). rewrite Hts.
    destruct (parse_scalar (Some format) (VStr (isoformat dt.2)))
      as [[dt'|]|] eqn:Hp; try discriminate.
    apply time_eqb_eq in Hr. simpl. eexists. split; [reflexivity|].
    simpl. rewrite Htt, Hr. reflexivity.
  - intros Hrest. destruct (IH Hrest) as (ts' & Hts & Htt). rewrite Hts.
    simpl. eexists. split; [reflexivity|]. simpl. rewrite Htt. reflexivity.
Qed.

Lemma filter_all {A} (P : A -> bool) (l : list A) :
  Forall (fun a => P a = true) l -> filter P l = l.
Proof.
  induction 1 as [|a l Ha Hl IH]; [reflexivity|].
  rewrite filter_cons. rewrite Ha. simpl. rewrite IH. reflexivity.
Qed.

(** A frame whose columns all have a value, none of them the raw age, is
    left as it is by the first two statements. *)
Lemma pruned_same (Y : DataFrame) :
  Forall (fun kc => forallb isna kc.2 = false /\ kc.1 <> "driver_age_raw")
    (columns Y) ->
  pruned Y = Y.
Proof.
  intros Hall. destruct Y as [idx cols]. unfold pruned, drop_columns,
    dropna_all_columns. simpl in *. f_equal.
  rewrite (filter_all (fun kc => negb (forallb isna kc.2))).
  - apply filter_all. eapply Forall_impl; [exact Hall|].
    intros [k s] [_ Hk]. simpl in *. apply negb_true_iff, bool_decide_eq_false.
    intros Hin. apply list_elem_of_singleton in Hin. contradiction.
  - eapply Forall_impl; [exact Hall|]. intros [k s] [Hs _]. simpl in *.
    rewrite Hs. reflexivity.
Qed.

Lemma columns_pruned (X : DataFrame) :
  Forall (fun kc => forallb isna kc.2 = false /\ kc.1 <> "driver_age_raw")
    (columns (pruned X)).
Proof.
  apply Forall_forall. intros [k s] Hin.
  unfold pruned, drop_columns, dropna_all_columns in Hin. simpl in Hin.
  apply list_elem_of_filter in Hin as [Hn Hin].
  apply list_elem_of_filter in Hin as [Hna Hin]. simpl in *. split.
  - destruct (forallb isna s); [destruct Hna|reflexivity].
  - intros ->. apply negb_True in Hn. apply Hn, bool_decide_pack. left.
Qed.

Lemma has_value_getitem (name : string) (df : DataFrame) (s : Series) :
  has_value name df = true -> getitem df name = Ok s -> forallb isna s = false.
Proof.
  unfold has_value. intros Hv Hg. apply getitem_Ok in Hg. rewrite Hg in Hv.
  apply negb_true_iff. exact Hv.
Qed.

Lemma cleaned_again `{Pandas} (format : string) (X Y : DataFrame) :
  cleaned (Some format) X = Ok Y ->
  has_value "stop_date" Y = true ->
  has_value "stop_time" Y = true ->
  times_read_back (Some format) Y = true ->
  cleaned (Some format) Y = Ok Y.
Proof.
  intros Hc Hdate Htime Hback.
  apply cleaned_inv in Hc
    as (st & vn & sc & ia & dr & sd & tm & ds & ts &
        Gst & Gvn & Gsc & Gia & Gdr & Gsd & Gtm & Tds & Tts & HY).
  pose proof (getitem_written (pruned X)
    (fillna (VStr "None Conducted") st) (fillna (VStr "Unknown") vn)
    (astype_bool sc) (astype_bool ia) (astype_bool dr)
    (dt_date ds) (dt_time ts)) as W.
  cbv zeta in W. rewrite <- HY in W.
  destruct W as (Wst & Wvn & Wsc & Wia & Wdr & Wsd & Wtm).
  assert (Hp : pruned Y = Y).
  { apply pruned_same. rewrite HY. apply Forall_written.
    - apply columns_pruned.
    - split; [|names_differ]. apply getitem_pruned in Gst as (_ & Hv & _).
      apply fillna_has_value; [reflexivity|exact Hv].
    - split; [|names_differ]. apply getitem_pruned in Gvn as (_ & Hv & _).
      apply fillna_has_value; [reflexivity|exact Hv].
    - split; [|names_differ]. apply getitem_pruned in Gsc as (_ & Hv & _).
      apply astype_bool_has_value, Hv.
    - split; [|names_differ]. apply getitem_pruned in Gia as (_ & Hv & _).
      apply astype_bool_has_value, Hv.
    - split; [|names_differ]. apply getitem_pruned in Gdr as (_ & Hv & _).
      apply astype_bool_has_value, Hv.
    - split; [|names_differ]. exact (has_value_getitem _ _ _ Hdate Wsd).
    - split; [|names_differ]. exact (has_value_getitem _ _ _ Htime Wtm). }
  destruct (to_datetime_dates ds) as (ds' & Hds & Hdd).
  assert (Hts : exists ts', to_datetime (Some format) (dt_time ts) = Ok ts' /\
                            dt_time ts' = dt_time ts).
  { apply to_datetime_times. unfold times_read_back in Hback.
    apply getitem_Ok in Wtm. rewrite Wtm in Hback. exact Hback. }
  destruct Hts as (ts' & Hts & Htt).
  unfold cleaned. rewrite Hp.
  rewrite (fill_column_update "search_type").
  rewrite (update_column_same _ _ Y _ Wst)
    by (rewrite fillna_fillna by reflexivity; reflexivity).
  simpl. rewrite (fill_column_update "vehicle_number").
  rewrite (update_column_same _ _ Y _ Wvn)
    by (rewrite fillna_fillna by reflexivity; reflexivity).
  simpl. rewrite (bool_column_update "search_conducted").
  rewrite (update_column_same _ _ Y _ Wsc)
    by (rewrite astype_bool_astype_bool; reflexivity).
  simpl. rewrite (bool_column_update "is_arrested").
  rewrite (update_column_same _ _ Y _ Wia)
    by (rewrite astype_bool_astype_bool; reflexivity).
  simpl. rewrite (bool_column_update "drugs_related_stop").
  rewrite (update_column_same _ _ Y _ Wdr)
    by (rewrite astype_bool_astype_bool; reflexivity).
  simpl. rewrite (date_column_update Y).
  rewrite (update_column_same _ _ Y _ Wsd)
    by (rewrite Hds; simpl; rewrite Hdd; reflexivity).
  simpl. rewrite time_column_update.
  apply (update_column_same _ _ Y _ Wtm).
  rewrite Hts. simpl. rewrite Htt. reflexivity.
Qed.

(** C4, as the code has it.  The normalizer of [data_cleaning.py] run on
    its own result returns that result, when the result keeps a date and
    a time in some row and each of its times, printed by [str], is read
    back as itself under the format of the script. *)
Theorem data_cleaning_normalize_idempotent `{Pandas} (raw clean : DataFrame) :
  data_cleaning.normalize raw = Ok clean ->
  has_value "stop_date" clean = true ->
  has_value "stop_time" clean = true ->
  times_read_back (Some "%H:%M:%S") clean = true ->
  data_cleaning.normalize clean = Ok clean.
Proof.
  rewrite !data_cleaning_normalize. apply cleaned_again.
Qed.

Lemma data_cleaning_normalize_idempotent_witness :
  @data_cleaning.normalize iso_pandas raw_frame = Ok clean_frame /\
  has_value "stop_date" clean_frame = true /\
  has_value "stop_time" clean_frame = true /\
  @times_read_back iso_pandas (Some "%H:%M:%S") clean_frame = true /\
  @data_cleaning.normalize iso_pandas clean_frame = Ok clean_frame.
Proof.
  assert (Hn : @data_cleaning.normalize iso_pandas raw_frame = Ok clean_frame)
    by (vm_compute; reflexivity).
  split; [exact Hn|]. do 3 (split; [reflexivity|]).
  apply (@data_cleaning_normalize_idempotent iso_pandas raw_frame clean_frame Hn);
    reflexivity.
Defined.

(** C4, as the specification states it, fails: the normalizer of
    [process_data.py] returns the clean frame on the raw example, and
    raises [TypeError] when it is run on that clean frame, whose
    stop_time column holds time objects. *)
Lemma normalize_twice_raises :
  @process_data.normalize iso_pandas raw_frame = Ok clean_frame /\
  @process_data.normalize iso_pandas clean_frame = Raise TypeError /\
  (@process_data.normalize iso_pandas raw_frame
     ≫= @process_data.normalize iso_pandas)
  <> @process_data.normalize iso_pandas raw_frame.
Proof.
  repeat split; try (vm_compute; reflexivity).
  vm_compute. discriminate.
Qed.

(** ** The catalog of queries *)

Lemma dict_getitem_absent {V} (d : list (string * V)) (key : string) :
  key ∉ d.*1 -> app.dict_getitem d key = Raise (KeyError key).
Proof.
  induction d as [|[k v] d IH]; simpl; [reflexivity|].
  intros Hk. apply not_elem_of_cons in Hk as [Hne Hk].
  rewrite string_eqb_ne by (intros ->; apply Hne; reflexivity).
  apply IH, Hk.
Qed.

(** Each name of the catalog runs the statement its text is, on the
    table as it is. *)
Lemma known_query_name_runs (t : table) :
  app.run_analytics_query "Top 10 Vehicles in Drug-Related Stops [cite: 56]" t
    = (Ok (Some (app.execute app.TopVehicles t)), t) /\
  app.run_analytics_query "Arrest Rate by Driver Age Group [cite: 59]" t
    = (Ok (Some (app.execute app.ArrestRateByAgeGroup t)), t) /\
  app.run_analytics_query "Violations with High Search/Arrest Rates [cite: 80]" t
    = (Ok (Some (app.execute app.ViolationRates t)), t).
Proof. repeat split; reflexivity. Qed.

(** C7. A name that is no key of [ANALYTICS_QUERIES] makes the lookup
    raise [KeyError] with that name: no query is run in its place, no
    result is returned, and the table is the one before the call. *)
Theorem unknown_query_name_raises (query_selection : string) (t : table) :
  query_selection ∉ app.ANALYTICS_QUERIES.*1 ->
  app.run_analytics_query query_selection t
  = (Raise (KeyError query_selection), t).
Proof.
  intros Hk. unfold app.run_analytics_query. rewrite run_bind. unfold lift.
  rewrite dict_getitem_absent by exact Hk. reflexivity.
Qed.

Lemma unknown_query_name_raises_witness :
  ("nonexistent" ∉ app.ANALYTICS_QUERIES.*1) /\
  app.run_analytics_query "nonexistent" four_ages
  = (Raise (KeyError "nonexistent"), four_ages).
Proof.
  assert (Hk : "nonexistent" ∉ app.ANALYTICS_QUERIES.*1)
    by (apply (bool_decide_unpack _); vm_compute; exact I).
  split; [exact Hk|].
  exact (unknown_query_name_raises "nonexistent" four_ages Hk).
Defined.

(** ** Age brackets *)

(** C3. The CASE of the report puts every age that is in none of the
    three closed intervals in the bracket 46+: a driver of 15, and a
    driver whose age is NULL, are counted with the drivers of 46 and
    more. *)
Lemma age_below_16_is_grouped_with_46_plus :
  app.age_group (a_stop 0 "India" None (Some 15) true) = "46+" /\
  app.age_group (a_stop 0 "India" None None true) = "46+" /\
  app.age_group (a_stop 0 "India" None (Some 46) true) = "46+" /\
  app.arrest_rate_by_age_group
    [a_stop 0 "India" None (Some 15) true;
     a_stop 1 "India" None (Some 50) false]
  = [("46+", (100 # 2)%Q)].
Proof. repeat split; vm_compute; reflexivity. Qed.

(** ** GROUP BY *)

Section group_by.
Context {K A : Type} `{EqDecision K}.
Variables (key : stop -> K) (step : stop -> A -> A) (init : A).

Lemma group_lookup_step_eq (k : K) (f : A -> A) (groups : list (K * A)) :
  group_lookup k (step_group k f init groups)
  = Some (f (default init (group_lookup k groups))).
Proof.
  induction groups as [|[k' a] rest IH]; simpl.
  - rewrite decide_True by reflexivity. reflexivity.
  - destruct (decide (k' = k)) as [->|Hne]; simpl.
    + rewrite decide_True by reflexivity. reflexivity.
    + rewrite decide_False by exact Hne. exact IH.
Qed.

Lemma group_lookup_step_ne (k k' : K) (f : A -> A) (groups : list (K * A)) :
  k <> k' ->
  group_lookup k' (step_group k f init groups) = group_lookup k' groups.
Proof.
  intros Hne. induction groups as [|[k0 a] rest IH]; simpl.
  - rewrite decide_False by exact Hne. reflexivity.
  - destruct (decide (k0 = k)) as [->|Hne0]; simpl.
    + rewrite !decide_False by exact Hne. reflexivity.
    + destruct (decide (k0 = k')); [reflexivity|exact IH].
Qed.

Lemma step_group_keys (k : K) (f : A -> A) (groups : list (K * A)) (k' : K) :
  k' ∈ (step_group k f init groups).*1 <-> k' = k \/ k' ∈ groups.*1.
Proof.
  induction groups as [|[k0 a] rest IH]; simpl.
  - rewrite list_elem_of_singleton. rewrite elem_of_nil. tauto.
  - destruct (decide (k0 = k)) as [->|Hne0]; simpl.
    + rewrite !elem_of_cons. tauto.
    + rewrite !elem_of_cons, IH. tauto.
Qed.

Lemma step_group_NoDup (k : K) (f : A -> A) (groups : list (K * A)) :
  NoDup groups.*1 -> NoDup (step_group k f init groups).*1.
Proof.
  induction groups as [|[k0 a] rest IH]; simpl; intros Hnd.
  - apply NoDup_singleton.
  - apply NoDup_cons in Hnd as [Hk0 Hnd].
    destruct (decide (k0 = k)) as [->|Hne0]; simpl.
    + apply NoDup_cons. split; assumption.
    + apply NoDup_cons. split; [|apply IH, Hnd].
      rewrite step_group_keys. intros [->|Hin]; [apply Hne0; reflexivity|].
      exact (Hk0 Hin).
Qed.

Lemma group_by_NoDup (t : table) : NoDup (group_by key step init t).*1.
Proof.
  unfold group_by. induction t as [|r t IH] using rev_ind; simpl.
  - apply NoDup_nil_2.
  - rewrite fold_left_app. simpl. apply step_group_NoDup, IH.
Qed.

Lemma group_lookup_elem (k : K) (a : A) (groups : list (K * A)) :
  NoDup groups.*1 -> (k, a) ∈ groups -> group_lookup k groups = Some a.
Proof.
  induction groups as [|[k0 a0] rest IH]; simpl; intros Hnd Hin.
  - inversion Hin.
  - apply NoDup_cons in Hnd as [Hk0 Hnd].
    apply elem_of_cons in Hin as [[= -> ->]|Hin].
    + rewrite decide_True by reflexivity. reflexivity.
    + destruct (decide (k0 = k)) as [->|Hne].
      * exfalso. apply Hk0. apply list_elem_of_fmap. exists (k, a). auto.
      * apply IH; assumption.
Qed.

(** When the accumulator of a list of rows can be told from the list
    ([agg]), the accumulator a key ends with is that of the rows of the
    key, in the order of the table. *)
Lemma group_by_lookup (agg : list stop -> A) (t : table) (k : K) :
  agg [] = init ->
  (forall l r, agg (l ++ [r])%list = step r (agg l)) ->
  group_lookup k (group_by key step init t)
  = match filter (fun r => key r = k) t with
    | [] => None
    | g => Some (agg g)
    end.
Proof.
  intros Hnil Hsnoc. unfold group_by.
  induction t as [|r t IH] using rev_ind; simpl; [reflexivity|].
  rewrite fold_left_app. simpl. rewrite filter_app, filter_cons, filter_nil.
  destruct (decide (key r = k)) as [<-|Hne].
  - rewrite group_lookup_step_eq, IH.
    destruct (filter (fun r0 => key r0 = key r) t) as [|r1 g] eqn:Hf; simpl.
    + rewrite <- Hnil, <- Hsnoc. reflexivity.
    + rewrite <- Hsnoc. reflexivity.
  - rewrite group_lookup_step_ne by exact Hne. rewrite IH, app_nil_r.
    reflexivity.
Qed.

Lemma group_by_elem (agg : list stop -> A) (t : table) (k : K) (a : A) :
  agg [] = init ->
  (forall l r, agg (l ++ [r])%list = step r (agg l)) ->
  (k, a) ∈ group_by key step init t ->
  a = agg (filter (fun r => key r = k) t) /\
  filter (fun r => key r = k) t <> [].
Proof.
  intros Hnil Hsnoc Hin.
  apply (group_lookup_elem _ _ _ (group_by_NoDup t)) in Hin.
  rewrite (group_by_lookup agg t k Hnil Hsnoc) in Hin.
  destruct (filter (fun r => key r = k) t); [discriminate|].
  injection Hin as <-. split; [reflexivity|discriminate].
Qed.

End group_by.

(** ** The percentages of the reports *)

Lemma count_rows_snoc (P : stop -> Prop) `{!forall r, Decision (P r)}
  (l : table) (r : stop) :
  count_rows P (l ++ [r])%list
  = count_rows P l + indicator (bool_decide (P r)).
Proof.
  unfold count_rows. rewrite filter_app, filter_cons, filter_nil, length_app.
  destruct (decide (P r)) as [Hp|Hp].
  - rewrite bool_decide_eq_true_2 by exact Hp. simpl. lia.
  - rewrite bool_decide_eq_false_2 by exact Hp. simpl. lia.
Qed.

Lemma indicator_flag (b : bool) : indicator (bool_decide (b = true)) = indicator b.
Proof. destruct b; reflexivity. Qed.




Lemma elem_of_sorted_map {A B} (R : relation B) `{!forall x y, Decision (R x y)}
  (f : A -> B) (l : list A) (b : B) :
  b ∈ merge_sort R (map f l) -> exists a, a ∈ l /\ b = f a.
Proof.
  rewrite merge_sort_Permutation. intros Hin.
  apply list_elem_of_In, in_map_iff in Hin as (a & <- & Hin).
  exists a. split; [apply list_elem_of_In, Hin|reflexivity].
Qed.




(** ** The bulk load *)

Lemma insert_values_stop_id (id : Z) (r : record) (s : stop) :
  insert_values id r = Ok s -> stop_id s = id.
Proof.
  unfold insert_values. intros Hs.
  destruct (negb _); [discriminate|].
  repeat match type of Hs with
         | (?m ≫= _) = _ =>
             destruct m eqn:?; simpl in Hs; [|discriminate]
         end.
  injection Hs as <-. reflexivity.
Qed.

(** The rows are appended after those of the table, one per label and in
    the order of the labels, each under its label. *)
Lemma insert_rows_appends (df : DataFrame) (labels : list Z) (i : nat)
  (t t' : table) :
  insert_rows true df labels i t = Ok t' ->
  exists rows,
    t' = (t ++ rows)%list /\
    map stop_id rows = labels /\
    forall j r, rows !! j = Some r ->
      insert_values (stop_id r) (iloc df (i + j)) = Ok r.
Proof.
  revert i t. induction labels as [|label labels IH]; intros i t; simpl.
  - intros [= <-]. exists []. rewrite app_nil_r. repeat split.
    intros j r Hj. rewrite lookup_nil in Hj. discriminate.
  - unfold row_key. destruct (has_field "stop_id" (iloc df i)); [discriminate|].
    simpl. destruct (bool_decide _); [discriminate|].
    destruct (insert_values label (iloc df i)) as [r|] eqn:Hr; [|discriminate].
    simpl. intros Ht'. apply IH in Ht' as (rows & -> & Hids & Hrows).
    exists (r :: rows). rewrite <- app_assoc. simpl.
    pose proof (insert_values_stop_id _ _ _ Hr) as Hid.
    repeat split.
    + rewrite Hid, Hids. reflexivity.
    + intros [|j] r' Hj; simpl in Hj.
      * injection Hj as <-. rewrite Hid, Nat.add_0_r. exact Hr.
      * replace (i + S j)%nat with (S i + j)%nat by lia. apply Hrows, Hj.
Qed.

Lemma create_and_load_database_appends (df : DataFrame) (db : option table)
  (t' : table) :
  process_data.create_and_load_database df db = (Ok tt, Some t') ->
  exists rows,
    t' = (default [] db ++ rows)%list /\
    map stop_id rows = index df /\
    forall j r, rows !! j = Some r ->
      insert_values (stop_id r) (iloc df j) = Ok r.
Proof.
  unfold process_data.create_and_load_database, to_sql.
  destruct (insert_rows true df (index df) 0 (default [] db)) as [t1|] eqn:Hi;
    [|discriminate].
  intros [= <-]. apply insert_rows_appends in Hi. exact Hi.
Qed.

Lemma cleaned_index `{Pandas} (format : option string) (X Y : DataFrame) :
  cleaned format X = Ok Y -> index Y = index X.
Proof.
  intros Hc. apply cleaned_inv in Hc
    as (st & vn & sc & ia & dr & sd & tm & ds & ts & _ & _ & _ & _ & _ & _ &
        _ & _ & _ & ->).
  reflexivity.
Qed.

(** C8. When the script has loaded a CSV, the table holds one row per
    row of the normalized frame and in the same order; the row at
    position i (from 0) has [stop_id] i and is the INSERT of row i of the
    normalized frame, whose row labels are those [read_csv] gave: 0, 1,
    2, ... in the order of the file. *)
Theorem bulk_load_keeps_order `{Pandas} (csv : list (string * Series))
  (t : table) :
  process_data.main csv = (Ok tt, Some t) ->
  exists processed_data,
    process_data.normalize (process_data.read_csv csv) = Ok processed_data /\
    index processed_data = index (process_data.read_csv csv) /\
    map stop_id t = seqZ 0 (Z.of_nat (length t)) /\
    length t = length (index processed_data) /\
    forall i r, t !! i = Some r ->
      stop_id r = Z.of_nat i /\
      insert_values (Z.of_nat i) (iloc processed_data i) = Ok r.
Proof.
  unfold process_data.main. intros Hm.
  destruct (process_data.normalize (process_data.read_csv csv))
    as [processed_data|] eqn:Hn; [|discriminate].
  exists processed_data. split; [reflexivity|].
  rewrite process_data_normalize in Hn. apply cleaned_index in Hn as Hidx.
  apply create_and_load_database_appends in Hm as (rows & -> & Hids & Hrows).
  simpl. simpl in Hidx.
  assert (Hlen : length rows = length (index processed_data)).
  { rewrite <- Hids. rewrite length_map. reflexivity. }
  assert (Hseq : map stop_id rows = seqZ 0 (Z.of_nat (length rows))).
  { rewrite Hids, Hlen, Hidx, length_seqZ. f_equal. lia. }
  split; [exact Hidx|]. split; [exact Hseq|]. split; [exact Hlen|].
  intros i r Hi.
  assert (Hid : stop_id r = Z.of_nat i).
  { assert (Hl : map stop_id rows !! i = Some (stop_id r))
      by (rewrite lookup_map, Hi; reflexivity).
    rewrite Hseq in Hl. apply lookup_seqZ in Hl as [-> _]. lia. }
  split; [exact Hid|]. rewrite <- Hid. apply Hrows, Hi.
Qed.

Lemma bulk_load_keeps_order_witness :
  exists t,
    @process_data.main iso_pandas raw_columns = (Ok tt, Some t) /\
    map stop_id t = [0; 1] /\
    map country_name t = ["India"; "India"] /\
    map vehicle_number t = [Some "RJ83PZ4441"; Some "Unknown"] /\
    forall i r, t !! i = Some r -> stop_id r = Z.of_nat i.
Proof.
  eexists. split; [vm_compute; reflexivity|].
  do 3 (split; [reflexivity|]).
  intros i r Hi.
  destruct (@bulk_load_keeps_order iso_pandas raw_columns _ eq_refl)
    as (processed_data & _ & _ & _ & _ & Hrows).
  exact (proj1 (Hrows i r Hi)).
Defined.

(** ** ORDER BY stop_date DESC, stop_time DESC *)

Lemma lex_compare_antisym (k1 k2 : list Z) :
  lex_compare k2 k1 = CompOpp (lex_compare k1 k2).
Proof.
  revert k2. induction k1 as [|a k1 IH]; intros [|b k2]; simpl; try reflexivity.
  rewrite (Z.compare_antisym a b).
  destruct (a ?= b); simpl; [apply IH|reflexivity|reflexivity].
Qed.

Lemma lex_compare_trans (k1 k2 k3 : list Z) :
  lex_compare k1 k2 <> Lt -> lex_compare k2 k3 <> Lt -> lex_compare k1 k3 <> Lt.
Proof.
  revert k2 k3.
  induction k1 as [|a k1 IH]; intros [|b k2] [|c k3]; simpl; try congruence.
  destruct (Z.compare_spec a b), (Z.compare_spec b c), (Z.compare_spec a c);
    try congruence; try lia.
  apply IH.
Qed.

#[global] Instance newest_first_total : Total newest_first.
Proof.
  intros r1 r2. unfold newest_first.
  rewrite (lex_compare_antisym (sort_key r1) (sort_key r2)).
  destruct (lex_compare (sort_key r1) (sort_key r2)); simpl; auto.
Qed.

#[global] Instance newest_first_transitive : Transitive newest_first.
Proof.
  intros r1 r2 r3. unfold newest_first.
  pose proof (lex_compare_trans (sort_key r1) (sort_key r2) (sort_key r3)) as Ht.
  destruct (lex_compare (sort_key r1) (sort_key r2));
    destruct (lex_compare (sort_key r2) (sort_key r3));
    destruct (lex_compare (sort_key r1) (sort_key r3));
    simpl; auto; intros; exfalso; apply Ht; congruence.
Qed.

Lemma StronglySorted_take {A} (R : relation A) (n : nat) (l : list A) :
  StronglySorted R l -> StronglySorted R (take n l).
Proof.
  intros Hs. rewrite <- (take_drop n l) in Hs.
  apply StronglySorted_app_1_l in Hs. exact Hs.
Qed.

(** ** LIKE *)

Lemma like_percent (p s : string) :
  like (String "%" p) s =
  like p s ||
  match s with
  | EmptyString => false
  | String _ s' => like (String "%" p) s'
  end.
Proof. destruct s; reflexivity. Qed.

Lemma like_any (s : string) : like "%" s = true.
Proof.
  induction s as [|c s IH]; [reflexivity|].
  rewrite like_percent. rewrite IH. apply orb_true_r.
Qed.

Lemma plain_char_literal (c : ascii) : plain_char c = true -> literal_char c = true.
Proof.
  unfold plain_char, literal_char. rewrite !negb_true_iff, !orb_false_iff.
  tauto.
Qed.

(** A pattern of letters followed by a percent sign matches the strings
    that begin with those letters, up to case. *)
Lemma like_letters_percent (t s : string) :
  string_forall literal_char t = true ->
  like (t ++ "%") s = starts_with (lower_string t) (lower_string s).
Proof.
  revert s. induction t as [|c t IH]; intros s; simpl.
  - intros _. apply like_any.
  - rewrite andb_true_iff. intros [Hc Ht].
    unfold literal_char in Hc. rewrite negb_true_iff, orb_false_iff in Hc.
    destruct Hc as [Hpc Hus]. rewrite Hpc.
    destruct s as [|d s]; simpl; [reflexivity|].
    rewrite Hus. simpl. rewrite IH by exact Ht. reflexivity.
Qed.

(** The pattern of the search: the term between two percent signs
    matches the strings that contain the term, up to case. *)
Lemma like_contains (t s : string) :
  string_forall literal_char t = true ->
  like ("%" ++ t ++ "%") s = contains_nocase t s.
Proof.
  intros Ht. unfold contains_nocase.
  change ("%" ++ t ++ "%") with (String "%" (t ++ "%")).
  induction s as [|d s IH].
  - rewrite like_percent, like_letters_percent by exact Ht. simpl.
    rewrite orb_false_r. reflexivity.
  - rewrite like_percent, like_letters_percent by exact Ht.
    rewrite IH. reflexivity.
Qed.

(** ** Reading the text of the search *)

Lemma append_cons (c : ascii) (a b : string) :
  String c a ++ b = String c (a ++ b).
Proof. reflexivity. Qed.

Lemma append_nil (b : string) : "" ++ b = b.
Proof. reflexivity. Qed.

Lemma string_app_assoc (a b c : string) : (a ++ b) ++ c = a ++ (b ++ c).
Proof.
  induction a as [|x a IH]; [reflexivity|].
  rewrite !append_cons, IH. reflexivity.
Qed.

Lemma string_forall_app (P : ascii -> bool) (a b : string) :
  string_forall P (a ++ b) = string_forall P a && string_forall P b.
Proof.
  induction a as [|x a IH]; [reflexivity|].
  rewrite append_cons. simpl. rewrite IH. apply andb_assoc.
Qed.

Lemma strip_prefix_app (p s : string) : app.strip_prefix p (p ++ s) = Some s.
Proof.
  induction p as [|c p IH]; [reflexivity|].
  rewrite append_cons. simpl. rewrite Ascii.eqb_refl. exact IH.
Qed.

(** A literal with no quote, colon or backslash is read up to the quote
    that closes it. *)
Lemma read_literal_app (lit rest : string) :
  string_forall quotable_char lit = true ->
  app.strip_prefix "'" rest = None ->
  app.read_literal (lit ++ "'" ++ rest) = Some (lit, rest).
Proof.
  intros Hlit Hrest. change ("'" ++ rest) with (String "'" rest).
  induction lit as [|c lit IH].
  - rewrite append_nil. destruct rest as [|d rest]; [reflexivity|].
    cbn [app.strip_prefix] in Hrest.
    change (app.read_literal (String "'" (String d rest)))
      with (if Ascii.eqb "'" "'" then
              if Ascii.eqb d "'" then None else Some ("", String d rest)
            else None : option (string * string)).
    rewrite Ascii.eqb_refl, Ascii.eqb_sym.
    destruct (Ascii.eqb "'" d); [discriminate|reflexivity].
  - rewrite append_cons. simpl in Hlit. apply andb_true_iff in Hlit as [Hc Hlit].
    unfold quotable_char in Hc. rewrite negb_true_iff, !orb_false_iff in Hc.
    destruct Hc as [[Hq Hco] Hb].
    cbn [app.read_literal]. rewrite Hq, Hco, Hb. cbn [orb].
    rewrite IH by exact Hlit. reflexivity.
Qed.

Lemma bind_Some {A B} (f : A -> option B) (x : A) : (Some x ≫= f) = f x.
Proof. reflexivity. Qed.

(** The text with a WHERE clause is read as the statement of its two
    literals. *)
Lemma read_latest_logs_where (p1 p2 : string) :
  string_forall quotable_char p1 = true ->
  string_forall quotable_char p2 = true ->
  app.read_latest_logs
    ((app.base_query ++ " ") ++ "WHERE country_name LIKE '" ++ p1 ++ "'" ++
     " OR vehicle_number LIKE '" ++ p2 ++ "'" ++ app.order_limit)
  = Some (app.LatestLogs (Some (p1, p2))).
Proof.
  intros H1 H2. unfold app.read_latest_logs.
  rewrite strip_prefix_app, bind_Some.
  rewrite strip_prefix_app.
  rewrite read_literal_app by (exact H1 || reflexivity).
  rewrite bind_Some. cbv beta iota.
  rewrite strip_prefix_app, bind_Some.
  rewrite read_literal_app by (exact H2 || reflexivity).
  rewrite bind_Some. cbv beta iota.
  rewrite String.eqb_refl. reflexivity.
Qed.

Lemma read_latest_logs_plain :
  app.read_latest_logs ((app.base_query ++ " ") ++ "" ++ app.order_limit)
  = Some (app.LatestLogs None).
Proof. vm_compute. reflexivity. Qed.

Lemma plain_char_quotable (c : ascii) : plain_char c = true -> quotable_char c = true.
Proof.
  unfold plain_char, quotable_char. rewrite !negb_true_iff, !orb_false_iff.
  tauto.
Qed.

Lemma string_forall_impl (P Q : ascii -> bool) (s : string) :
  (forall c, P c = true -> Q c = true) ->
  string_forall P s = true -> string_forall Q s = true.
Proof.
  intros HPQ. induction s as [|c s IH]; simpl; [reflexivity|].
  rewrite !andb_true_iff. intros [Hc Hs]. auto.
Qed.

Lemma final_query_text (search_term : string) :
  app.final_query search_term =
  (app.base_query ++ " ") ++
  (if String.eqb search_term "" then ""
   else "WHERE country_name LIKE '" ++ ("%" ++ search_term ++ "%") ++ "'" ++
        " OR vehicle_number LIKE '" ++ ("%" ++ search_term ++ "%") ++ "'") ++
  app.order_limit.
Proof.
  unfold app.final_query, app.where_clause.
  rewrite (string_app_assoc app.base_query " ").
  destruct (String.eqb search_term ""); [reflexivity|].
  do 2 f_equal.
  rewrite !string_app_assoc. reflexivity.
Qed.

Lemma read_latest_logs_final_query (search_term : string) :
  plain_term search_term = true ->
  app.read_latest_logs (app.final_query search_term)
  = Some (app.LatestLogs (patterns_of search_term)).
Proof.
  intros Hplain. rewrite final_query_text. unfold patterns_of.
  destruct (String.eqb search_term "") eqn:Hempty.
  - apply read_latest_logs_plain.
  - assert (Hq : string_forall quotable_char ("%" ++ search_term ++ "%") = true).
    { change ("%" ++ search_term ++ "%") with (String "%" (search_term ++ "%")).
      cbn [string_forall]. rewrite string_forall_app.
      rewrite (string_forall_impl _ _ _ plain_char_quotable Hplain).
      reflexivity. }
    set (pattern := "%" ++ search_term ++ "%") in *.
    rewrite !string_app_assoc. rewrite <- (string_app_assoc app.base_query " ").
    apply read_latest_logs_where; exact Hq.
Qed.

Lemma read_statement_final_query (search_term : string) :
  plain_term search_term = true ->
  app.read_statement (app.final_query search_term)
  = Some (app.LatestLogs (patterns_of search_term)).
Proof.
  intros Hplain. unfold app.read_statement.
  assert (H1 : String.eqb (app.final_query search_term) app.top_vehicles_sql = false).
  { unfold app.final_query. generalize (app.where_clause search_term ++ app.order_limit).
    intros rest. vm_compute. reflexivity. }
  assert (H2 : String.eqb (app.final_query search_term) app.arrest_rate_sql = false).
  { unfold app.final_query. generalize (app.where_clause search_term ++ app.order_limit).
    intros rest. vm_compute. reflexivity. }
  assert (H3 : String.eqb (app.final_query search_term) app.violation_rates_sql = false).
  { unfold app.final_query. generalize (app.where_clause search_term ++ app.order_limit).
    intros rest. vm_compute. reflexivity. }
  rewrite H1, H2, H3. apply read_latest_logs_final_query, Hplain.
Qed.

(** ** The search *)

Lemma where_matches_shows (search_term : string) (r : stop) :
  plain_term search_term = true ->
  app.where_matches (patterns_of search_term) r = shows_nocase search_term r.
Proof.
  intros Hplain. unfold patterns_of, shows_nocase.
  destruct (String.eqb search_term "") eqn:Hempty.
  - apply String.eqb_eq in Hempty. subst search_term.
    unfold contains_nocase. destruct (lower_string (country_name r)); reflexivity.
  - pose proof (string_forall_impl _ _ _ plain_char_literal Hplain) as Hl.
    unfold app.where_matches, like_null.
    rewrite like_contains by exact Hl. f_equal.
    destruct (vehicle_number r) as [v|]; [|reflexivity].
    apply like_contains, Hl.
Qed.

(** C1, as the code has it.  For a search term with no quote, percent
    sign, underscore, colon or backslash, the search returns rows of the
    table whose country name or vehicle number contains the term up to
    the case of ASCII letters, each before the rows that are not newer
    than it by stop_date, then stop_time; it returns as many rows as
    match, and 50 when more than 50 match; the table is not changed. *)
Theorem search_returns_matching_rows (search_term : string) (t : table) :
  plain_term search_term = true ->
  exists rows,
    app.latest_logs_df search_term t
      = (Ok (Some (map app.log_columns rows)), t) /\
    Forall (fun r => r ∈ t /\ shows_nocase search_term r = true) rows /\
    StronglySorted newest_first rows /\
    length rows
    = Nat.min 50 (length (filter (fun r => shows_nocase search_term r = true) t)).
Proof.
  intros Hplain. exists (app.latest_logs (patterns_of search_term) t).
  split; [|split; [|split]].
  - unfold app.latest_logs_df, app.fetch_data.
    rewrite read_statement_final_query by exact Hplain. reflexivity.
  - apply Forall_forall. intros r Hr. unfold app.latest_logs in Hr.
    apply subseteq_take in Hr. rewrite merge_sort_Permutation in Hr.
    apply list_elem_of_filter in Hr as [Hm Hr]. split; [exact Hr|].
    rewrite <- where_matches_shows by exact Hplain.
    apply Is_true_true, Hm.
  - unfold app.latest_logs. apply StronglySorted_take.
    apply StronglySorted_merge_sort; apply _.
  - unfold app.latest_logs.
    rewrite length_take, (Permutation_length (merge_sort_Permutation _ _)).
    f_equal. f_equal. apply list_filter_iff. intros r.
    rewrite where_matches_shows by exact Hplain. apply Is_true_true.
Qed.

Lemma search_returns_matching_rows_witness :
  plain_term "rj" = true /\
  exists rows,
    app.latest_logs_df "rj" [a_stop 0 "India" (Some "RJ83PZ4441") (Some 30) false]
      = (Ok (Some (map app.log_columns rows)),
         [a_stop 0 "India" (Some "RJ83PZ4441") (Some 30) false]) /\
    Forall (fun r => r ∈ [a_stop 0 "India" (Some "RJ83PZ4441") (Some 30) false]
                     /\ shows_nocase "rj" r = true) rows /\
    StronglySorted newest_first rows /\
    length rows
    = Nat.min 50
        (length (filter (fun r => shows_nocase "rj" r = true)
                   [a_stop 0 "India" (Some "RJ83PZ4441") (Some 30) false])).
Proof.
  split; [reflexivity|].
  apply (search_returns_matching_rows "rj"). reflexivity.
Defined.

(** C1, as the specification states it, fails: for the term made of an
    underscore the search returns a row whose country name and vehicle
    number hold no underscore, because LIKE reads the underscore as any
    one character. *)
Lemma underscore_matches_any_row :
  app.latest_logs_df "_" [a_stop 0 "India" (Some "RJ83PZ4441") (Some 30) false]
  = (Ok (Some [app.log_columns
                 (a_stop 0 "India" (Some "RJ83PZ4441") (Some 30) false)]),
     [a_stop 0 "India" (Some "RJ83PZ4441") (Some 30) false]) /\
  shows "_" (a_stop 0 "India" (Some "RJ83PZ4441") (Some 30) false) = false /\
  contains "_" "India" = false /\
  contains "_" "RJ83PZ4441" = false.
Proof. repeat split; vm_compute; reflexivity. Qed.

(** * Further properties of the code *)

(** ** [preprocess_data]: the columns it keeps and the ones it writes *)

Lemma lookup_column_filter (P : string * Series -> Prop)
  `{!forall kc, Decision (P kc)} (k : string) (s : Series) cols :
  lookup_column k cols = Some s -> P (k, s) ->
  lookup_column k (filter P cols) = Some s.
Proof.
  induction cols as [|[k' s'] rest IH]; simpl; [discriminate|].
  destruct (String.eqb k' k) eqn:E.
  - apply String.eqb_eq in E. subst k'. intros [= ->] HP.
    rewrite filter_cons_True by exact HP. simpl.
    rewrite String.eqb_refl. reflexivity.
  - intros Hl HP. rewrite filter_cons.
    destruct (decide (P (k', s'))); [simpl; rewrite E|]; auto.
Qed.

Lemma getitem_pruned_kept (X : DataFrame) (k : string) (s : Series) :
  getitem X k = Ok s -> forallb isna s = false -> k <> "driver_age_raw" ->
  getitem (pruned X) k = Ok s.
Proof.
  intros Hg Hv Hk. apply getitem_Ok in Hg. apply getitem_Ok.
  unfold pruned, drop_columns, dropna_all_columns. simpl.
  apply lookup_column_filter.
  - apply lookup_column_filter; [exact Hg|]. simpl. rewrite Hv. exact I.
  - simpl. apply negb_True. intros Hin. apply bool_decide_unpack in Hin.
    apply list_elem_of_singleton in Hin. contradiction.
Qed.

Lemma elem_lookup_column (k : string) (s : Series) cols :
  (k, s) ∈ cols -> exists s', lookup_column k cols = Some s'.
Proof.
  induction cols as [|[k' s'] rest IH]; intros Hin; [inversion Hin|].
  simpl. destruct (String.eqb k' k) eqn:E; [eauto|].
  apply elem_of_cons in Hin as [[= -> ->]|Hin]; [|auto].
  rewrite String.eqb_refl in E. discriminate.
Qed.

Lemma all_missing_false (name : string) (df : DataFrame) :
  all_missing name df = false ->
  exists s, (name, s) ∈ columns df /\ forallb isna s = false.
Proof.
  unfold all_missing. induction (columns df) as [|[k s] rest IH]; simpl;
    [discriminate|].
  destruct (String.eqb k name) eqn:E; simpl.
  - destruct (forallb isna s) eqn:Hs; simpl.
    + intros Hr. destruct (IH Hr) as (s' & Hin & Hv). exists s'.
      split; [right; exact Hin|exact Hv].
    + intros _. apply String.eqb_eq in E. subst k. exists s.
      split; [left|exact Hs].
  - intros Hr. destruct (IH Hr) as (s' & Hin & Hv). exists s'.
    split; [right; exact Hin|exact Hv].
Qed.

Lemma getitem_pruned_present (name : string) (X : DataFrame) :
  all_missing name X = false -> name <> "driver_age_raw" ->
  exists s, getitem (pruned X) name = Ok s.
Proof.
  intros Hm Hn. apply all_missing_false in Hm as (s & Hin & Hv).
  assert (Hp : (name, s) ∈ columns (pruned X)).
  { unfold pruned, drop_columns, dropna_all_columns. simpl.
    apply list_elem_of_filter. split.
    - simpl. apply negb_True. intros Hd. apply bool_decide_unpack in Hd.
      apply list_elem_of_singleton in Hd. contradiction.
    - apply list_elem_of_filter. split; [|exact Hin]. simpl. rewrite Hv.
      exact I. }
  apply elem_lookup_column in Hp as [s' Hs']. exists s'.
  apply getitem_Ok, Hs'.
Qed.

Lemma getitem_written_other (P : DataFrame) (st vn sc ia dr sd tm : Series)
  (k : string) :
  k ∉ ["search_type"; "vehicle_number"; "search_conducted"; "is_arrested";
       "drugs_related_stop"; "stop_date"; "stop_time"] ->
  getitem (written P st vn sc ia dr sd tm) k = getitem P k.
Proof.
  intros Hk. unfold written.
  rewrite !getitem_setitem_ne; [reflexivity|..];
    intros <-; apply Hk; repeat first [left | right].
Qed.

Lemma fillna_cells (v : cell) (s : Series) :
  isna v = false -> Forall (fun c => isna c = false) (fillna v s).
Proof.
  intros Hv. induction s as [|c s IH]; simpl; constructor; [|exact IH].
  destruct (isna c) eqn:Hc; assumption.
Qed.

(** X1. After either normalizer has returned, the vehicle_number column
    is the one of the raw frame with its missing cells, and only those,
    replaced by Unknown, and neither vehicle_number nor search_type
    holds a missing value any more. *)
Theorem vehicle_number_filled_where_missing `{Pandas} (raw clean : DataFrame) :
  data_cleaning.normalize raw = Ok clean \/ process_data.normalize raw = Ok clean ->
  exists s s' st',
    ("vehicle_number", s) ∈ columns raw /\
    getitem clean "vehicle_number" = Ok s' /\
    getitem clean "search_type" = Ok st' /\
    length s' = length s /\
    (forall i c, s !! i = Some c ->
       s' !! i = Some (if isna c then VStr "Unknown" else c)) /\
    Forall (fun c => isna c = false) s' /\
    Forall (fun c => isna c = false) st'.
Proof.
  intros Hn. apply normalize_cases in Hn as [format Hc].
  apply cleaned_inv in Hc
    as (st & vn & sc & ia & dr & sd & tm & ds & ts &
        Gst & Gvn & Gsc & Gia & Gdr & Gsd & Gtm & Tds & Tts & ->).
  match goal with
  | |- context [written ?P ?a ?b ?c ?d ?e ?f ?g] =>
      destruct (getitem_written P a b c d e f g) as (Wst & Wvn & _)
  end.
  apply getitem_pruned in Gvn as (Ivn & _).
  exists vn, (fillna (VStr "Unknown") vn), (fillna (VStr "None Conducted") st).
  split; [exact Ivn|]. split; [exact Wvn|]. split; [exact Wst|].
  split; [unfold fillna; apply length_map|].
  split; [|split; apply fillna_cells; reflexivity].
  intros i c Hi. unfold fillna. rewrite lookup_map, Hi. reflexivity.
Qed.

Lemma vehicle_number_filled_where_missing_witness :
  (@data_cleaning.normalize iso_pandas raw_frame = Ok clean_frame \/
   @process_data.normalize iso_pandas raw_frame = Ok clean_frame) /\
  exists s s' st',
    ("vehicle_number", s) ∈ columns raw_frame /\
    getitem clean_frame "vehicle_number" = Ok s' /\
    getitem clean_frame "search_type" = Ok st' /\
    length s' = length s /\
    (forall i c, s !! i = Some c ->
       s' !! i = Some (if isna c then VStr "Unknown" else c)) /\
    Forall (fun c => isna c = false) s' /\
    Forall (fun c => isna c = false) st'.
Proof.
  assert (Hn : @data_cleaning.normalize iso_pandas raw_frame = Ok clean_frame \/
               @process_data.normalize iso_pandas raw_frame = Ok clean_frame)
    by (left; vm_compute; reflexivity).
  split; [exact Hn|].
  exact (@vehicle_number_filled_where_missing iso_pandas raw_frame clean_frame Hn).
Defined.

(** X2. After either normalizer has returned, the row labels are those
    of the raw frame, there is no driver_age_raw column, and a column
    the statements do not write is in the result exactly as it is in the
    raw frame: a column read from the result is a column of the raw
    frame with a value in some row, and a column read from the raw frame
    that has a value in some row is read from the result unchanged. *)
Theorem normalize_keeps_other_columns `{Pandas} (raw clean : DataFrame) :
  data_cleaning.normalize raw = Ok clean \/ process_data.normalize raw = Ok clean ->
  index clean = index raw /\
  getitem clean "driver_age_raw" = Raise (KeyError "driver_age_raw") /\
  forall k s,
    k ∉ ["search_type"; "vehicle_number"; "search_conducted"; "is_arrested";
         "drugs_related_stop"; "stop_date"; "stop_time"] ->
    k <> "driver_age_raw" ->
    (getitem clean k = Ok s -> (k, s) ∈ columns raw /\ forallb isna s = false) /\
    (getitem raw k = Ok s -> forallb isna s = false -> getitem clean k = Ok s).
Proof.
  intros Hn. apply normalize_cases in Hn as [format Hc].
  apply cleaned_inv in Hc
    as (st & vn & sc & ia & dr & sd & tm & ds & ts &
        Gst & Gvn & Gsc & Gia & Gdr & Gsd & Gtm & Tds & Tts & ->).
  split; [reflexivity|]. split.
  - rewrite getitem_written_other.
    + destruct (getitem_cases (pruned raw) "driver_age_raw") as [[s Hs]|Hr];
        [|exact Hr].
      apply getitem_pruned in Hs as (_ & _ & Hne). contradiction.
    + intros Hin. repeat (apply elem_of_cons in Hin as [[=]|Hin]).
      inversion Hin.
  - intros k s Hk Hne. rewrite getitem_written_other by exact Hk. split.
    + intros Hg. apply getitem_pruned in Hg as (Hin & Hv & _). auto.
    + intros Hg Hv. apply getitem_pruned_kept; assumption.
Qed.

Lemma normalize_keeps_other_columns_witness :
  (@data_cleaning.normalize iso_pandas raw_frame = Ok clean_frame \/
   @process_data.normalize iso_pandas raw_frame = Ok clean_frame) /\
  index clean_frame = index raw_frame /\
  getitem clean_frame "driver_age_raw" = Raise (KeyError "driver_age_raw") /\
  getitem clean_frame "country_name" = getitem raw_frame "country_name".
Proof.
  assert (Hn : @data_cleaning.normalize iso_pandas raw_frame = Ok clean_frame \/
               @process_data.normalize iso_pandas raw_frame = Ok clean_frame)
    by (left; vm_compute; reflexivity).
  destruct (@normalize_keeps_other_columns iso_pandas raw_frame clean_frame Hn)
    as (Hi & Hd & Hk).
  split; [exact Hn|]. split; [exact Hi|]. split; [exact Hd|]. reflexivity.
Defined.

(** ** [preprocess_data]: dates and times *)

Lemma to_datetime_length `{Pandas} (format : option string) (s : Series)
  (ts : list (option datetime)) :
  to_datetime format s = Ok ts -> length ts = length s.
Proof.
  revert ts. induction s as [|c s IH]; simpl; intros ts.
  - intros [= <-]. reflexivity.
  - destruct (to_datetime_cell format c) as [t|]; [|discriminate]. simpl.
    destruct (to_datetime format s) as [ts'|]; [|discriminate]. simpl.
    intros [= <-]. simpl. rewrite (IH ts') by reflexivity. reflexivity.
Qed.

Lemma to_datetime_lookup `{Pandas} (format : option string) (s : Series)
  (ts : list (option datetime)) (i : nat) (c : cell) :
  to_datetime format s = Ok ts -> s !! i = Some c ->
  exists t, ts !! i = Some t /\ to_datetime_cell format c = Ok t.
Proof.
  revert ts i. induction s as [|c0 s IH]; simpl; intros ts i.
  - intros _ Hi. rewrite lookup_nil in Hi. discriminate.
  - destruct (to_datetime_cell format c0) as [t0|] eqn:Hc0; [|discriminate].
    simpl. destruct (to_datetime format s) as [ts'|]; [|discriminate]. simpl.
    intros [= <-]. destruct i as [|i]; simpl.
    + intros [= <-]. eauto.
    + apply IH. reflexivity.
Qed.

Lemma dt_date_cells (ts : list (option datetime)) :
  forallb date_or_NaT (dt_date ts) = true.
Proof. induction ts as [|[dt|] ts IH]; simpl; auto. Qed.

Lemma dt_time_cells (ts : list (option datetime)) :
  forallb time_or_NaT (dt_time ts) = true.
Proof. induction ts as [|[dt|] ts IH]; simpl; auto. Qed.

Lemma to_datetime_cell_missing `{Pandas} (format : option string) (c : cell) :
  isna c = true -> to_datetime_cell format c = Ok None.
Proof. destruct c; simpl; intros [=]; reflexivity. Qed.

(** X3. After either normalizer has returned, every cell of stop_date
    is a date object or NaT and every cell of stop_time a time object or
    NaT, row for row with the raw columns: a missing raw cell has become
    NaT, and a raw cell that was a date object already is that date. *)
Theorem dates_and_times_after_normalize `{Pandas} (raw clean : DataFrame) :
  data_cleaning.normalize raw = Ok clean \/ process_data.normalize raw = Ok clean ->
  exists sd sd' tm tm',
    ("stop_date", sd) ∈ columns raw /\ ("stop_time", tm) ∈ columns raw /\
    getitem clean "stop_date" = Ok sd' /\ getitem clean "stop_time" = Ok tm' /\
    length sd' = length sd /\ length tm' = length tm /\
    forallb date_or_NaT sd' = true /\ forallb time_or_NaT tm' = true /\
    (forall i c, sd !! i = Some c -> isna c = true -> sd' !! i = Some NaT) /\
    (forall i d, sd !! i = Some (VDate d) -> sd' !! i = Some (VDate d)) /\
    (forall i c, tm !! i = Some c -> isna c = true -> tm' !! i = Some NaT).
Proof.
  intros Hn. apply normalize_cases in Hn as [format Hc].
  apply cleaned_inv in Hc
    as (st & vn & sc & ia & dr & sd & tm & ds & ts &
        Gst & Gvn & Gsc & Gia & Gdr & Gsd & Gtm & Tds & Tts & ->).
  match goal with
  | |- context [written ?P ?a ?b ?c ?d ?e ?f ?g] =>
      destruct (getitem_written P a b c d e f g)
        as (_ & _ & _ & _ & _ & Wsd & Wtm)
  end.
  apply getitem_pruned in Gsd as (Isd & _).
  apply getitem_pruned in Gtm as (Itm & _).
  exists sd, (dt_date ds), tm, (dt_time ts).
  repeat (split; [first [assumption | apply dt_date_cells | apply dt_time_cells
                        | unfold dt_date, dt_time; rewrite length_map;
                          eapply to_datetime_length; eassumption]|]).
  split; [|split].
  - intros i c Hi Hna.
    destruct (to_datetime_lookup _ _ _ _ _ Tds Hi) as (t & Ht & Hc).
    rewrite to_datetime_cell_missing in Hc by exact Hna. injection Hc as <-.
    unfold dt_date. rewrite lookup_map, Ht. reflexivity.
  - intros i d Hi.
    destruct (to_datetime_lookup _ _ _ _ _ Tds Hi) as (t & Ht & Hc).
    simpl in Hc. injection Hc as <-.
    unfold dt_date. rewrite lookup_map, Ht. reflexivity.
  - intros i c Hi Hna.
    destruct (to_datetime_lookup _ _ _ _ _ Tts Hi) as (t & Ht & Hc).
    rewrite to_datetime_cell_missing in Hc by exact Hna. injection Hc as <-.
    unfold dt_time. rewrite lookup_map, Ht. reflexivity.
Qed.

Lemma dates_and_times_after_normalize_witness :
  (@data_cleaning.normalize iso_pandas raw_frame = Ok clean_frame \/
   @process_data.normalize iso_pandas raw_frame = Ok clean_frame) /\
  exists sd' tm',
    getitem clean_frame "stop_date" = Ok sd' /\
    getitem clean_frame "stop_time" = Ok tm' /\
    forallb date_or_NaT sd' = true /\ forallb time_or_NaT tm' = true.
Proof.
  assert (Hn : @data_cleaning.normalize iso_pandas raw_frame = Ok clean_frame \/
               @process_data.normalize iso_pandas raw_frame = Ok clean_frame)
    by (right; vm_compute; reflexivity).
  split; [exact Hn|].
  destruct (@dates_and_times_after_normalize iso_pandas raw_frame clean_frame Hn)
    as (sd & sd' & tm & tm' & _ & _ & Gd & Gt & _ & _ & Fd & Ft & _).
  exists sd', tm'. auto.
Defined.

(** ** [preprocess_data]: errors *)

Lemma result_bind_Ok {A B} (f : A -> result B) (a : A) : (Ok a ≫= f) = f a.
Proof. reflexivity. Qed.

Lemma update_column_Raise name f (d : DataFrame) (e : exn) :
  getitem d name = Raise e -> update_column name f d = Raise e.
Proof. intros Hg. unfold update_column. rewrite Hg. reflexivity. Qed.

Lemma update_column_Ok name f (d : DataFrame) (s s' : Series) :
  getitem d name = Ok s -> f s = Ok s' ->
  update_column name f d = Ok (setitem d name s').
Proof.
  intros Hg Hf. unfold update_column. rewrite Hg. simpl. rewrite Hf. reflexivity.
Qed.

(** The statements of [cleaned], each as an [update_column]. *)
Lemma cleaned_steps `{Pandas} (format : option string) (X : DataFrame) :
  cleaned format X =
  (d ← update_column "search_type"
         (fun s => Ok (fillna (VStr "None Conducted") s)) (pruned X);
   d ← update_column "vehicle_number"
         (fun s => Ok (fillna (VStr "Unknown") s)) d;
   d ← update_column "search_conducted" (fun s => Ok (astype_bool s)) d;
   d ← update_column "is_arrested" (fun s => Ok (astype_bool s)) d;
   d ← update_column "drugs_related_stop" (fun s => Ok (astype_bool s)) d;
   d ← update_column "stop_date" (fun s => dt_date <$> to_datetime None s) d;
   update_column "stop_time" (fun s => dt_time <$> to_datetime format s) d).
Proof.
  unfold cleaned.
  rewrite (fill_column_update "search_type"), (fill_column_update "vehicle_number").
  rewrite (bool_column_update "search_conducted"),
    (bool_column_update "is_arrested"), (bool_column_update "drugs_related_stop").
  destruct (update_column "search_type" _ (pruned X)) as [d1|]; [|reflexivity].
  simpl. destruct (update_column "vehicle_number" _ d1) as [d2|]; [|reflexivity].
  simpl. destruct (update_column "search_conducted" _ d2) as [d3|]; [|reflexivity].
  simpl. destruct (update_column "is_arrested" _ d3) as [d4|]; [|reflexivity].
  simpl. destruct (update_column "drugs_related_stop" _ d4) as [d5|]; [|reflexivity].
  simpl. rewrite date_column_update.
  destruct (update_column "stop_date" _ d5) as [d6|]; [|reflexivity].
  simpl. apply time_column_update.
Qed.

(** A statement whose column is there goes through; the frame it leaves
    has the other columns as before. *)
Ltac column_there G :=
  erewrite update_column_Ok;
    [ rewrite result_bind_Ok
    | rewrite ?getitem_setitem_ne by names_differ; exact G
    | reflexivity ].

Ltac column_missing Hm :=
  erewrite update_column_Raise;
    [ reflexivity
    | rewrite ?getitem_setitem_ne by names_differ;
      apply getitem_pruned_missing; exact Hm ].

Lemma cleaned_first_missing `{Pandas} (format : option string)
  (X : DataFrame) (name : string) :
  first_missing X = Some name -> cleaned format X = Raise (KeyError name).
Proof.
  unfold first_missing, required_columns. cbn [find]. intros Hf.
  rewrite cleaned_steps.
  destruct (all_missing "search_type" X) eqn:M1.
  { injection Hf as <-. column_missing M1. }
  destruct (getitem_pruned_present _ _ M1 ltac:(names_differ)) as [s1 G1].
  column_there G1.
  destruct (all_missing "vehicle_number" X) eqn:M2.
  { injection Hf as <-. column_missing M2. }
  destruct (getitem_pruned_present _ _ M2 ltac:(names_differ)) as [s2 G2].
  column_there G2.
  destruct (all_missing "search_conducted" X) eqn:M3.
  { injection Hf as <-. column_missing M3. }
  destruct (getitem_pruned_present _ _ M3 ltac:(names_differ)) as [s3 G3].
  column_there G3.
  destruct (all_missing "is_arrested" X) eqn:M4.
  { injection Hf as <-. column_missing M4. }
  destruct (getitem_pruned_present _ _ M4 ltac:(names_differ)) as [s4 G4].
  column_there G4.
  destruct (all_missing "drugs_related_stop" X) eqn:M5.
  { injection Hf as <-. column_missing M5. }
  destruct (getitem_pruned_present _ _ M5 ltac:(names_differ)) as [s5 G5].
  column_there G5.
  destruct (all_missing "stop_date" X) eqn:M6; [|discriminate].
  injection Hf as <-. column_missing M6.
Qed.

(** X4. When one of search_type, vehicle_number, search_conducted,
    is_arrested, drugs_related_stop and stop_date is absent from the raw
    frame or holds missing values only, both normalizers raise
    [KeyError], and the key is the first such column in the order of the
    statements. *)
Theorem normalize_key_error_names_first_missing `{Pandas} (raw : DataFrame)
  (name : string) :
  first_missing raw = Some name ->
  data_cleaning.normalize raw = Raise (KeyError name) /\
  process_data.normalize raw = Raise (KeyError name).
Proof.
  intros Hf. rewrite data_cleaning_normalize, process_data_normalize.
  split; apply cleaned_first_missing, Hf.
Qed.

Lemma normalize_key_error_names_first_missing_witness :
  first_missing no_arrest_frame = Some "is_arrested" /\
  @data_cleaning.normalize iso_pandas no_arrest_frame
    = Raise (KeyError "is_arrested") /\
  @process_data.normalize iso_pandas no_arrest_frame
    = Raise (KeyError "is_arrested").
Proof.
  split; [reflexivity|].
  apply (@normalize_key_error_names_first_missing iso_pandas no_arrest_frame).
  reflexivity.
Defined.

Lemma update_column_fails name f (d : DataFrame) (s : Series) (e : exn) :
  getitem d name = Ok s -> f s = Raise e -> update_column name f d = Raise e.
Proof.
  intros Hg Hf. unfold update_column. rewrite Hg. simpl. rewrite Hf. reflexivity.
Qed.

Lemma first_missing_None (X : DataFrame) :
  first_missing X = None ->
  Forall (fun name => all_missing name X = false) required_columns.
Proof.
  unfold first_missing, required_columns. cbn [find]. intros Hf.
  repeat match type of Hf with
         | (if ?b then _ else _) = None =>
             destruct b eqn:?; [discriminate|]
         end.
  repeat constructor; assumption.
Qed.

(** The run up to the parsing of the dates, when no column is missing. *)
Lemma cleaned_parses_dates `{Pandas} (format : option string) (X : DataFrame)
  (sd : Series) :
  first_missing X = None ->
  getitem X "stop_date" = Ok sd -> forallb isna sd = false ->
  exists d,
    getitem d "stop_date" = Ok sd /\
    (forall k, k <> "stop_date" -> k ∉ ["search_type"; "vehicle_number";
        "search_conducted"; "is_arrested"; "drugs_related_stop"] ->
        getitem d k = getitem (pruned X) k) /\
    cleaned format X =
      (d ← update_column "stop_date" (fun s => dt_date <$> to_datetime None s) d;
       update_column "stop_time" (fun s => dt_time <$> to_datetime format s) d).
Proof.
  intros Hf Gd Hv. apply first_missing_None in Hf.
  unfold required_columns in Hf.
  repeat match goal with
         | H : Forall _ (_ :: _) |- _ => apply Forall_cons in H as [? H]
         end.
  destruct (getitem_pruned_present "search_type" X) as [s1 G1];
    [assumption|names_differ|].
  destruct (getitem_pruned_present "vehicle_number" X) as [s2 G2];
    [assumption|names_differ|].
  destruct (getitem_pruned_present "search_conducted" X) as [s3 G3];
    [assumption|names_differ|].
  destruct (getitem_pruned_present "is_arrested" X) as [s4 G4];
    [assumption|names_differ|].
  destruct (getitem_pruned_present "drugs_related_stop" X) as [s5 G5];
    [assumption|names_differ|].
  pose proof (getitem_pruned_kept X "stop_date" sd Gd Hv ltac:(names_differ)) as G6.
  rewrite cleaned_steps.
  column_there G1. column_there G2. column_there G3. column_there G4.
  column_there G5.
  eexists. split; [|split; [|reflexivity]].
  - rewrite ?getitem_setitem_ne by names_differ. exact G6.
  - intros k Hk Hks. rewrite !getitem_setitem_ne; [reflexivity|..];
      intros <-; apply Hks; repeat first [left | right].
Qed.

(** X5. When no column is missing, a stop date that [pd.to_datetime]
    refuses makes both normalizers raise its error, and no frame is
    returned; when the dates are read, a stop time that is refused does
    the same, in each script under its own format. *)
Theorem normalize_raises_on_unreadable_date_or_time `{Pandas} (raw : DataFrame)
  (sd : Series) :
  first_missing raw = None ->
  getitem raw "stop_date" = Ok sd -> forallb isna sd = false ->
  (forall e, to_datetime None sd = Raise e ->
     data_cleaning.normalize raw = Raise e /\
     process_data.normalize raw = Raise e) /\
  (forall ds tm e, to_datetime None sd = Ok ds ->
     getitem raw "stop_time" = Ok tm -> forallb isna tm = false ->
     (to_datetime (Some "%H:%M:%S") tm = Raise e ->
      data_cleaning.normalize raw = Raise e) /\
     (to_datetime None tm = Raise e -> process_data.normalize raw = Raise e)).
Proof.
  intros Hf Gd Hv.
  rewrite data_cleaning_normalize, process_data_normalize.
  assert (Hdate : forall format e, to_datetime None sd = Raise e ->
            cleaned format raw = Raise e).
  { intros format e He.
    destruct (cleaned_parses_dates format raw sd Hf Gd Hv) as (d & G & _ & ->).
    erewrite update_column_fails; [reflexivity|exact G|]. rewrite He.
    reflexivity. }
  assert (Htime : forall format ds tm e, to_datetime None sd = Ok ds ->
            getitem raw "stop_time" = Ok tm -> forallb isna tm = false ->
            to_datetime format tm = Raise e -> cleaned format raw = Raise e).
  { intros format ds tm e Hds Gt Hvt He.
    destruct (cleaned_parses_dates format raw sd Hf Gd Hv) as (d & G & Go & ->).
    erewrite update_column_Ok; [|exact G|rewrite Hds; reflexivity].
    rewrite result_bind_Ok.
    erewrite update_column_fails; [reflexivity| |rewrite He; reflexivity].
    rewrite getitem_setitem_ne by names_differ.
    rewrite Go.
    - apply getitem_pruned_kept; [assumption|assumption|names_differ].
    - names_differ.
    - intros Hin. repeat (apply elem_of_cons in Hin as [[=]|Hin]).
      inversion Hin. }
  split.
  - intros e He. split; apply Hdate, He.
  - intros ds tm e Hds Gt Hvt. split; intros He; eapply Htime; eassumption.
Qed.

Lemma normalize_raises_on_unreadable_date_or_time_witness :
  first_missing bad_date_frame = None /\
  getitem bad_date_frame "stop_date"
    = Ok [VStr "2024-01-02"; VStr "yesterday"] /\
  @to_datetime iso_pandas None [VStr "2024-01-02"; VStr "yesterday"]
    = Raise ValueError /\
  @data_cleaning.normalize iso_pandas bad_date_frame = Raise ValueError /\
  @process_data.normalize iso_pandas bad_date_frame = Raise ValueError.
Proof.
  split; [reflexivity|]. split; [reflexivity|]. split; [reflexivity|].
  apply (proj1 (@normalize_raises_on_unreadable_date_or_time iso_pandas
                  bad_date_frame [VStr "2024-01-02"; VStr "yesterday"]
                  eq_refl eq_refl eq_refl)).
  reflexivity.
Defined.

(** ** [process_data.preprocess_data] on its own result *)

Lemma to_datetime_time_object `{Pandas} (s : Series) (t : time)
  (ts : list (option datetime)) :
  VTime t ∈ s -> to_datetime None s <> Ok ts.
Proof.
  revert ts. induction s as [|c s IH]; intros ts Hin; [inversion Hin|].
  simpl. apply elem_of_cons in Hin as [<-|Hin]; [simpl; discriminate|].
  destruct (to_datetime_cell None c) as [t0|]; [|discriminate]. simpl.
  destruct (to_datetime None s) as [ts'|] eqn:Hs; [|discriminate].
  exfalso. exact (IH ts' Hin eq_refl).
Qed.

Lemma some_time_object (s : Series) :
  forallb time_or_NaT s = true -> forallb isna s = false ->
  exists t, VTime t ∈ s.
Proof.
  induction s as [|c s IH]; simpl; [discriminate|].
  rewrite andb_true_iff. intros [Hc Hs].
  destruct c; try discriminate; simpl.
  - intros Hv. destruct (IH Hs Hv) as [t Ht]. exists t. right. exact Ht.
  - intros _. exists t. left.
Qed.

(** X6. The normalizer of [process_data.py] never returns on one of
    its own results that has a time in some row: the stop_time column it
    wrote holds time objects, which [pd.to_datetime] without a format
    does not convert. *)
Theorem process_data_normalize_not_rerunnable `{Pandas}
  (raw clean again : DataFrame) :
  process_data.normalize raw = Ok clean ->
  has_value "stop_time" clean = true ->
  process_data.normalize clean <> Ok again.
Proof.
  rewrite !process_data_normalize. intros Hc Hv Hagain.
  apply cleaned_inv in Hc
    as (st & vn & sc & ia & dr & sd & tm & ds & ts &
        Gst & Gvn & Gsc & Gia & Gdr & Gsd & Gtm & Tds & Tts & HY).
  pose proof (getitem_written (pruned raw)
    (fillna (VStr "None Conducted") st) (fillna (VStr "Unknown") vn)
    (astype_bool sc) (astype_bool ia) (astype_bool dr)
    (dt_date ds) (dt_time ts)) as W.
  cbv zeta in W. rewrite <- HY in W.
  destruct W as (_ & _ & _ & _ & _ & _ & Wtm).
  pose proof (has_value_getitem _ _ _ Hv Wtm) as Hval.
  destruct (some_time_object _ (dt_time_cells ts) Hval) as [t Ht].
  apply cleaned_inv in Hagain
    as (st2 & vn2 & sc2 & ia2 & dr2 & sd2 & tm2 & ds2 & ts2 &
        _ & _ & _ & _ & _ & _ & Gtm2 & _ & Tts2 & _).
  rewrite (getitem_pruned_kept clean "stop_time" (dt_time ts) Wtm Hval
             ltac:(names_differ)) in Gtm2.
  injection Gtm2 as <-.
  exact (to_datetime_time_object _ _ _ Ht Tts2).
Qed.

Lemma process_data_normalize_not_rerunnable_witness :
  @process_data.normalize iso_pandas raw_frame = Ok clean_frame /\
  has_value "stop_time" clean_frame = true /\
  @process_data.normalize iso_pandas clean_frame <> Ok clean_frame.
Proof.
  split; [vm_compute; reflexivity|]. split; [reflexivity|].
  apply (@process_data_normalize_not_rerunnable iso_pandas raw_frame clean_frame).
  - vm_compute. reflexivity.
  - reflexivity.
Defined.

(** ** [to_sql]: keys and rows *)

Lemma foldr_max_ge (k : Z) (ks : list Z) (x : Z) :
  x ∈ k :: ks -> x <= foldr Z.max k ks.
Proof.
  induction ks as [|a ks IH]; simpl.
  - intros Hx. apply list_elem_of_singleton in Hx. lia.
  - intros Hx. apply elem_of_cons in Hx as [->|Hx].
    + assert (k <= foldr Z.max k ks) by (apply IH; left). lia.
    + apply elem_of_cons in Hx as [->|Hx]; [lia|].
      assert (x <= foldr Z.max k ks) by (apply IH; right; exact Hx). lia.
Qed.

(** The key SQLite gives is larger than every key of the table. *)
Lemma next_rowid_fresh (t : table) : next_rowid t ∉ map stop_id t.
Proof.
  unfold next_rowid. destruct (map stop_id t) as [|k ks] eqn:E.
  - apply not_elem_of_nil.
  - intros Hin. apply foldr_max_ge in Hin. lia.
Qed.

Lemma NoDup_map_snoc (t : table) (r : stop) :
  NoDup (map stop_id t) -> stop_id r ∉ map stop_id t ->
  NoDup (map stop_id (t ++ [r])).
Proof.
  intros Hnd Hr. rewrite map_app. simpl. apply NoDup_app. split; [exact Hnd|].
  split; [|apply NoDup_singleton].
  intros x Hx Hx'. apply list_elem_of_singleton in Hx'. subst x. exact (Hr Hx).
Qed.

(** Whatever the source of the keys, the rows are appended after those
    of the table, one per label, and the keys stay distinct. *)
Lemma insert_rows_keys (with_index : bool) (df : DataFrame) (labels : list Z)
  (i : nat) (t t' : table) :
  insert_rows with_index df labels i t = Ok t' ->
  exists rows,
    t' = (t ++ rows)%list /\ length rows = length labels /\
    (NoDup (map stop_id t) -> NoDup (map stop_id t')) /\
    (forall j r, rows !! j = Some r ->
       (stop_id r ∉ map stop_id t) /\
       insert_values (stop_id r) (iloc df (i + j)) = Ok r).
Proof.
  revert i t. induction labels as [|label labels IH]; intros i t; simpl.
  - intros [= <-]. exists []. rewrite app_nil_r.
    split; [reflexivity|]. split; [reflexivity|]. split; [auto|].
    intros j r Hj. rewrite lookup_nil in Hj. discriminate.
  - destruct (row_key with_index label (iloc df i) t) as [id|]; [|discriminate].
    simpl. destruct (bool_decide (id ∈ map stop_id t)) eqn:Hid; [discriminate|].
    apply bool_decide_eq_false in Hid.
    destruct (insert_values id (iloc df i)) as [r|] eqn:Hr; [|discriminate].
    simpl. intros Ht'. apply IH in Ht' as (rows & -> & Hlen & Hnd & Hrows).
    pose proof (insert_values_stop_id _ _ _ Hr) as Hrid.
    assert (Heq : ((t ++ [r]) ++ rows)%list = (t ++ r :: rows)%list)
      by (rewrite <- app_assoc; reflexivity).
    rewrite Heq in *.
    exists (r :: rows).
    split; [reflexivity|]. split; [simpl; rewrite Hlen; reflexivity|]. split.
    + intros Ht. apply Hnd.
      apply NoDup_map_snoc; [exact Ht|]. rewrite Hrid. exact Hid.
    + intros [|j] r' Hj; simpl in Hj.
      * injection Hj as <-. rewrite Hrid, Nat.add_0_r. split; assumption.
      * replace (i + S j)%nat with (S i + j)%nat by lia.
        destruct (Hrows j r' Hj) as [Hn Hv]. split; [|exact Hv].
        intros Hin. apply Hn. rewrite map_app. apply elem_of_app. left.
        exact Hin.
Qed.



(** X8. Loading the same frame a second time fails: when
    [create_and_load_database] has loaded a frame with at least one row,
    a second call on the resulting table raises [IntegrityError] on the
    first key and leaves the table as it is. *)
Theorem create_and_load_database_twice (df : DataFrame) (db : option table)
  (t : table) :
  process_data.create_and_load_database df db = (Ok tt, Some t) ->
  index df <> [] ->
  process_data.create_and_load_database df (Some t)
  = (Raise IntegrityError, Some t).
Proof.
  intros Hload Hrows.
  unfold process_data.create_and_load_database, to_sql in *. simpl.
  destruct (index df) as [|label labels]; [contradiction|].
  destruct (insert_rows true df (label :: labels) 0 (default [] db))
    as [t1|] eqn:Hi; [|discriminate].
  injection Hload as ->.
  pose proof Hi as Hi'. apply insert_rows_appends in Hi' as (rows & -> & Hids & _).
  cbn [insert_rows] in Hi |- *. unfold row_key in *.
  destruct (has_field "stop_id" (iloc df 0)); [discriminate|].
  rewrite result_bind_Ok.
  rewrite bool_decide_eq_true_2; [reflexivity|].
  rewrite map_app, Hids. apply elem_of_app. right. left.
Qed.

Lemma create_and_load_database_twice_witness :
  exists t,
    process_data.create_and_load_database clean_frame None = (Ok tt, Some t) /\
    index clean_frame <> [] /\
    process_data.create_and_load_database clean_frame (Some t)
    = (Raise IntegrityError, Some t).
Proof.
  eexists. split; [vm_compute; reflexivity|]. split; [discriminate|].
  apply (create_and_load_database_twice clean_frame None);
    [vm_compute; reflexivity|discriminate].
Defined.

(** ** What a load that succeeds says about the frame *)

Lemma not_null_value {A} (conv : cell -> result (option A)) (c : cell) (a : A) :
  (forall c', isna c' = true -> conv c' = Ok None) ->
  conv c ≫= not_null = Ok a -> isna c = false.
Proof.
  intros Hconv Hc. destruct (isna c) eqn:Hna; [|reflexivity].
  rewrite (Hconv c Hna) in Hc. discriminate.
Qed.

Lemma as_text_missing (c : cell) : isna c = true -> as_text c = Ok None.
Proof. destruct c; simpl; intros [=]; reflexivity. Qed.

Lemma as_bool_missing (c : cell) : isna c = true -> as_bool c = Ok None.
Proof. destruct c; simpl; intros [=]; reflexivity. Qed.

Lemma as_date_missing (c : cell) : isna c = true -> as_date c = Ok None.
Proof. destruct c; simpl; intros [=]; reflexivity. Qed.

Lemma as_time_missing (c : cell) : isna c = true -> as_time c = Ok None.
Proof. destruct c; simpl; intros [=]; reflexivity. Qed.

Lemma insert_values_conforms (id : Z) (r : record) (s : stop) :
  insert_values id r = Ok s ->
  Forall (fun kc => kc.1 ∈ table_columns) r /\
  forall name, name ∈ not_null_columns -> isna (field name r) = false.
Proof.
  unfold insert_values. intros Hs.
  destruct (forallb _ r) eqn:Hnames; [|discriminate]. simpl in Hs.
  repeat match type of Hs with
         | (?m ≫= _) = _ =>
             destruct m eqn:?; simpl in Hs; [|discriminate]
         end.
  split.
  - apply Forall_forall. intros kc Hin. rewrite forallb_forall in Hnames.
    apply list_elem_of_In in Hin. apply Hnames in Hin.
    apply bool_decide_eq_true in Hin. exact Hin.
  - intros name Hin. unfold not_null_columns in Hin.
    repeat (apply elem_of_cons in Hin as [->|Hin]);
      [ eapply not_null_value; [apply as_date_missing|eassumption]
      | eapply not_null_value; [apply as_time_missing|eassumption]
      | eapply not_null_value; [apply as_text_missing|eassumption]
      | eapply not_null_value; [apply as_text_missing|eassumption]
      | eapply not_null_value; [apply as_bool_missing|eassumption]
      | eapply not_null_value; [apply as_bool_missing|eassumption]
      | eapply not_null_value; [apply as_bool_missing|eassumption]
      | inversion Hin ].
Qed.

Lemma iloc_names (df : DataFrame) (i : nat) : (iloc df i).*1 = (columns df).*1.
Proof.
  unfold iloc. induction (columns df) as [|kc cols IH]; [reflexivity|].
  cbn [map fmap list_fmap fst]. f_equal. exact IH.
Qed.

(** X9. A load that succeeds has checked the frame against the
    schema: when [create_and_load_database] returns on a frame with at
    least one row, every column of the frame is a column of the table,
    and no row has a missing value in a column declared NOT NULL. *)
Theorem loaded_frame_conforms (df : DataFrame) (db : option table) (t : table) :
  process_data.create_and_load_database df db = (Ok tt, Some t) ->
  index df <> [] ->
  Forall (fun name => name ∈ table_columns) (columns df).*1 /\
  forall i name, (i < length (index df))%nat -> name ∈ not_null_columns ->
    isna (field name (iloc df i)) = false.
Proof.
  intros Hload Hrows.
  apply create_and_load_database_appends in Hload as (rows & _ & Hids & Hins).
  assert (Hlen : length rows = length (index df))
    by (rewrite <- Hids, length_map; reflexivity).
  assert (Hrow : forall i, (i < length (index df))%nat ->
            exists r, insert_values (stop_id r) (iloc df i) = Ok r).
  { intros i Hi. rewrite <- Hlen in Hi. apply lookup_lt_is_Some in Hi as [r Hr].
    exists r. apply Hins, Hr. }
  split.
  - destruct (index df) as [|l ls] eqn:E; [contradiction|].
    destruct (Hrow 0%nat) as [r Hr]; [simpl; lia|].
    apply insert_values_conforms in Hr as [Hnames _].
    rewrite <- (iloc_names df 0). apply Forall_fmap. exact Hnames.
  - intros i name Hi Hname. destruct (Hrow i Hi) as [r Hr].
    apply insert_values_conforms in Hr as [_ Hnn]. apply Hnn, Hname.
Qed.

Lemma loaded_frame_conforms_witness :
  exists t,
    process_data.create_and_load_database clean_frame None = (Ok tt, Some t) /\
    index clean_frame <> [] /\
    Forall (fun name => name ∈ table_columns) (columns clean_frame).*1.
Proof.
  eexists. split; [vm_compute; reflexivity|]. split; [discriminate|].
  eapply proj1. eapply (loaded_frame_conforms clean_frame None);
    [vm_compute; reflexivity|discriminate].
Defined.

(** ** [log_new_stop] *)

Lemma iloc_frame_of_record (r : record) : iloc (app.frame_of_record r) 0 = r.
Proof.
  unfold iloc, app.frame_of_record. cbn [columns].
  induction r as [|[k c] r IH]; [reflexivity|].
  cbn [map]. f_equal. exact IH.
Qed.

(** X10. [log_new_stop] never raises, and it appends one row or
    nothing: either the table has gained exactly one row at its end, the
    INSERT of the record under a key no row of the table had, or the
    table is the one before the call. *)
Theorem log_new_stop_appends_one_or_nothing (log_data : record) (t : table) :
  (exists r,
     app.log_new_stop log_data t = (Ok true, (t ++ [r])%list) /\
     (stop_id r ∉ map stop_id t) /\
     insert_values (stop_id r) log_data = Ok r) \/
  app.log_new_stop log_data t = (Ok false, t).
Proof.
  unfold app.log_new_stop, to_sql.
  destruct (insert_rows false (app.frame_of_record log_data)
              (index (app.frame_of_record log_data)) 0 t) as [t'|] eqn:Hi;
    [|right; reflexivity].
  left. apply insert_rows_keys in Hi as (rows & -> & Hlen & _ & Hrows).
  destruct rows as [|r [|r' rows]]; try discriminate.
  exists r. destruct (Hrows 0%nat r eq_refl) as [Hfresh Hins].
  split; [reflexivity|]. split; [exact Hfresh|].
  rewrite iloc_frame_of_record in Hins. exact Hins.
Qed.

Lemma insert_values_new_log (id : Z) stop_date stop_time country_name
  vehicle_number driver_gender driver_age violation stop_duration
  search_conducted drugs_related_stop is_arrested stop_outcome :
  insert_values id
    (app.new_log stop_date stop_time country_name vehicle_number
       driver_gender driver_age violation stop_duration search_conducted
       drugs_related_stop is_arrested stop_outcome)
  = Ok (logged_stop id stop_date stop_time country_name vehicle_number
          driver_gender driver_age violation stop_duration search_conducted
          drugs_related_stop is_arrested stop_outcome).
Proof. destruct search_conducted; reflexivity. Qed.

Lemma log_new_stop_new_log (t : table) stop_date stop_time country_name
  vehicle_number driver_gender driver_age violation stop_duration
  search_conducted drugs_related_stop is_arrested stop_outcome :
  app.log_new_stop
    (app.new_log stop_date stop_time country_name vehicle_number
       driver_gender driver_age violation stop_duration search_conducted
       drugs_related_stop is_arrested stop_outcome) t
  = (Ok true,
     (t ++ [logged_stop (next_rowid t) stop_date stop_time country_name
              vehicle_number driver_gender driver_age violation stop_duration
              search_conducted drugs_related_stop is_arrested stop_outcome])%list).
Proof.
  unfold app.log_new_stop, to_sql.
  change (index (app.frame_of_record ?r)) with [0].
  cbn [insert_rows]. rewrite iloc_frame_of_record.
  change (row_key false 0 (app.new_log _ _ _ _ _ _ _ _ _ _ _ _) t)
    with (Ok (next_rowid t)).
  rewrite result_bind_Ok.
  rewrite bool_decide_eq_false_2 by apply next_rowid_fresh.
  rewrite insert_values_new_log. reflexivity.
Qed.



(** ** The reports: which rows, in which order *)

Section group_keys.
Context {K A : Type} `{EqDecision K}.
Variables (key : stop -> K) (step : stop -> A -> A) (init : A).

Lemma group_by_keys (t : table) (k : K) :
  k ∈ (group_by key step init t).*1 <-> exists r, r ∈ t /\ key r = k.
Proof.
  unfold group_by. induction t as [|r t IH] using rev_ind; simpl.
  - rewrite elem_of_nil. split; [tauto|]. intros (r & Hr & _). inversion Hr.
  - rewrite fold_left_app. simpl. rewrite step_group_keys, IH. split.
    + intros [->|(r' & Hr' & <-)].
      * exists r. split; [apply elem_of_app; right; left|reflexivity].
      * exists r'. split; [apply elem_of_app; left; exact Hr'|reflexivity].
    + intros (r' & Hr' & <-). apply elem_of_app in Hr' as [Hr'|Hr'].
      * right. exists r'. split; [exact Hr'|reflexivity].
      * apply list_elem_of_singleton in Hr' as ->. left. reflexivity.
Qed.

Lemma group_lookup_Some (k : K) (a : A) (groups : list (K * A)) :
  group_lookup k groups = Some a -> (k, a) ∈ groups.
Proof.
  induction groups as [|[k0 a0] rest IH]; simpl; [discriminate|].
  destruct (decide (k0 = k)) as [->|Hne].
  - intros [= ->]. left.
  - intros Hl. right. apply IH, Hl.
Qed.
End group_keys.

Lemma StronglySorted_weaken {A} (R1 R2 : relation A) (l : list A) :
  (forall x y, R1 x y -> R2 x y) -> StronglySorted R1 l -> StronglySorted R2 l.
Proof.
  intros Himp. induction 1 as [|x l Hs IH Hx]; constructor; [exact IH|].
  eapply Forall_impl; [exact Hx|]. intros y. apply Himp.
Qed.

(** Of a sorted list cut after [n] elements: what was cut is behind
    every element that was kept. *)
Lemma sorted_prefix {A} (R : relation A) `{!forall x y, Decision (R x y)}
  (n : nat) (l : list A) (y : A) :
  Transitive R -> Total R -> y ∈ l ->
  y ∈ take n (merge_sort R l) \/
  (length (take n (merge_sort R l)) = n /\
   forall x, x ∈ take n (merge_sort R l) -> R x y).
Proof.
  intros Htrans Htotal Hy.
  pose proof (StronglySorted_merge_sort R l) as Hs.
  rewrite <- (merge_sort_Permutation R l) in Hy.
  rewrite <- (take_drop n (merge_sort R l)) in Hy, Hs.
  apply elem_of_app in Hy as [Hy|Hy]; [left; exact Hy|right]. split.
  - apply length_take_le.
    destruct (decide (n <= length (merge_sort R l))%nat) as [Hle|Hgt];
      [exact Hle|].
    rewrite drop_ge in Hy by lia. inversion Hy.
  - intros x Hx. exact (StronglySorted_app_1_elem_of R _ _ x y Hs Hx Hy).
Qed.

Lemma count_desc_transitive :
  Transitive (fun x y : option string * Z => Is_true (y.2 <=? x.2)).
Proof.
  intros x y z Hxy Hyz. apply Is_true_true, Z.leb_le in Hxy, Hyz.
  apply Is_true_true, Z.leb_le. lia.
Qed.

Lemma count_desc_total :
  Total (fun x y : option string * Z => Is_true (y.2 <=? x.2)).
Proof.
  intros x y. destruct (Z.le_ge_cases x.2 y.2) as [Hle|Hle];
    [right|left]; apply Is_true_true, Z.leb_le, Hle.
Qed.

Lemma drug_stops_of_vehicle (t : table) (v : option string) :
  filter (fun r => vehicle_number r = v)
    (filter (fun r => drugs_related_stop r &&
                      bool_decide (is_Some (vehicle_number r))) t)
  = filter (fun r => is_Some v /\ vehicle_number r = v /\
                     drugs_related_stop r = true) t.
Proof.
  rewrite list_filter_filter. apply list_filter_iff. intros r.
  rewrite andb_True, bool_decide_spec, Is_true_true. split.
  - intros [<- [Hd Hv]]. auto.
  - intros (Hv & <- & Hd). auto.
Qed.

(** X12. The report of the vehicles in drug-related stops has at most
    ten rows, with distinct vehicle numbers and the largest count first;
    every row holds a vehicle number, never NULL, with the number of
    drug-related stops of the table under that number, at least one; and
    a vehicle with drug-related stops is in the report unless the report
    is full with ten vehicles of at least as many such stops. *)
Theorem top_vehicles_report (t : table) :
  let report := app.top_vehicles t in
  let drug_stops name :=
    count_rows (fun r => vehicle_number r = Some name /\
                         drugs_related_stop r = true) t in
  (length report <= 10)%nat /\
  NoDup report.*1 /\
  StronglySorted (fun x y => y.2 <= x.2) report /\
  (forall v n, (v, n) ∈ report ->
     exists name, v = Some name /\ n = drug_stops name /\ 1 <= n) /\
  (forall name, 1 <= drug_stops name ->
     (Some name, drug_stops name) ∈ report \/
     (length report = 10%nat /\
      Forall (fun x => drug_stops name <= x.2) report)).
Proof.
  unfold app.top_vehicles.
  set (stops := filter _ t).
  set (groups := group_by vehicle_number (fun _ n => n + 1) 0 stops).
  set (by_count := fun x y : option string * Z => y.2 <=? x.2).
  assert (Hagg : forall v,
            group_lookup v groups
            = match filter (fun r => vehicle_number r = v) stops with
              | [] => None
              | g => Some (Z.of_nat (length g))
              end).
  { intros v. apply (group_by_lookup _ _ _ (fun l => Z.of_nat (length l)));
      [reflexivity|].
    intros l r. rewrite length_app. simpl. lia. }
  assert (Hcount : forall name,
            Z.of_nat (length (filter (fun r => vehicle_number r = Some name) stops))
            = count_rows (fun r => vehicle_number r = Some name /\
                                   drugs_related_stop r = true) t).
  { intros name. unfold stops. rewrite drug_stops_of_vehicle.
    unfold count_rows. f_equal. f_equal. apply list_filter_iff. intros r.
    split; [tauto|]. intros H. split; [eexists; reflexivity|exact H]. }
  cbv zeta. split; [|split; [|split; [|split]]].
  - rewrite length_take. lia.
  - rewrite fmap_take. eapply sublist_NoDup; [|apply sublist_take].
    rewrite (merge_sort_Permutation _ groups). apply group_by_NoDup.
  - apply StronglySorted_take.
    apply (StronglySorted_weaken (fun x y => Is_true (by_count x y))).
    + intros x y Hxy. apply Is_true_true, Z.leb_le in Hxy. exact Hxy.
    + apply (@StronglySorted_merge_sort _ _ _ count_desc_transitive
               count_desc_total).
  - intros v n Hin. apply subseteq_take in Hin.
    rewrite merge_sort_Permutation in Hin.
    apply (group_lookup_elem _ _ _ (group_by_NoDup _ _ _ _)) in Hin.
    rewrite Hagg in Hin.
    destruct (filter (fun r => vehicle_number r = v) stops) as [|r g] eqn:Hg;
      [discriminate|].
    injection Hin as <-.
    assert (Hr : r ∈ filter (fun r => vehicle_number r = v) stops)
      by (rewrite Hg; left).
    unfold stops in Hr. rewrite drug_stops_of_vehicle in Hr.
    apply list_elem_of_filter in Hr as [([name ->] & _ & _) _].
    exists name. split; [reflexivity|]. rewrite <- Hcount, Hg.
    split; [reflexivity|]. simpl. lia.
  - intros name Hn. rewrite <- Hcount in Hn |- *.
    assert (Hin : (Some name,
                   Z.of_nat (length (filter (fun r => vehicle_number r = Some name)
                                       stops))) ∈ groups).
    { apply group_lookup_Some. rewrite Hagg.
      destruct (filter (fun r => vehicle_number r = Some name) stops);
        [simpl in Hn; lia|reflexivity]. }
    destruct (sorted_prefix (fun x y => Is_true (by_count x y)) 10 groups _
                count_desc_transitive count_desc_total Hin) as [Hk|[Hlen Hall]];
      [left; exact Hk|right].
    split; [exact Hlen|]. apply Forall_forall. intros x Hx.
    apply Hall in Hx. apply Is_true_true, Z.leb_le in Hx. exact Hx.
Qed.

Lemma percentage_bounds (s n : Z) :
  0 <= s <= n -> 0 < n -> (0 <= percentage s n)%Q /\ (percentage s n <= 100)%Q.
Proof.
  intros Hs Hn. destruct n as [|p|p]; try lia.
  unfold percentage, Qle, Qdiv, Qmult, Qinv, inject_Z. simpl.
  split; nia.
Qed.

Lemma mean_bounds (s a n : Z) :
  0 <= s <= n -> 0 <= a <= n -> 0 < n ->
  (0 <= (percentage s n + percentage a n) / 2)%Q /\
  ((percentage s n + percentage a n) / 2 <= 100)%Q.
Proof.
  intros Hs Ha Hn. destruct n as [|p|p]; try lia.
  unfold percentage, Qle, Qdiv, Qmult, Qplus, Qinv, inject_Z. simpl.
  rewrite ?Pos2Z.inj_mul. split; nia.
Qed.

Lemma count_rows_bounds (P : stop -> Prop) `{!forall r, Decision (P r)}
  (l : table) :
  0 <= count_rows P l <= Z.of_nat (length l).
Proof. unfold count_rows. pose proof (length_filter P l). lia. Qed.

Lemma rate_desc_transitive {A} (f : A -> Q) :
  Transitive (fun x y : A => Is_true (Qle_bool (f y) (f x))).
Proof.
  intros x y z Hxy Hyz. apply Is_true_true, Qle_bool_iff in Hxy, Hyz.
  apply Is_true_true, Qle_bool_iff. eapply Qle_trans; eassumption.
Qed.

Lemma rate_desc_total {A} (f : A -> Q) :
  Total (fun x y : A => Is_true (Qle_bool (f y) (f x))).
Proof.
  intros x y. destruct (Qlt_le_dec (f x) (f y)) as [Hlt|Hle].
  - right. apply Is_true_true, Qle_bool_iff, Qlt_le_weak, Hlt.
  - left. apply Is_true_true, Qle_bool_iff, Hle.
Qed.

Lemma age_group_label (r : stop) :
  app.age_group r ∈ ["16-25"; "26-35"; "36-45"; "46+"].
Proof.
  unfold app.age_group.
  repeat match goal with
         | |- context [if ?b then _ else _] => destruct b
         end; apply list_elem_of_In; simpl; auto.
Qed.

(** X13. The report by age bracket has one row for each bracket some
    row of the table falls in and no other row, so at most four, under
    distinct labels; the rows come with the largest rate first, and
    every rate lies between 0 and 100. *)
Theorem arrest_rate_report_rows (t : table) :
  let report := app.arrest_rate_by_age_group t in
  NoDup report.*1 /\
  (forall k, k ∈ report.*1 <-> exists r, r ∈ t /\ app.age_group r = k) /\
  (length report <= 4)%nat /\
  StronglySorted (fun x y => (y.2 <= x.2)%Q) report /\
  Forall (fun g => (0 <= g.2)%Q /\ (g.2 <= 100)%Q) report.
Proof.
  unfold app.arrest_rate_by_age_group.
  set (groups := group_by app.age_group _ _ t).
  set (rows := map _ groups).
  assert (Hkeys : (merge_sort (fun x y : string * Q => Qle_bool y.2 x.2) rows).*1
                  ≡ₚ groups.*1).
  { rewrite merge_sort_Permutation. unfold rows.
    rewrite <- list_fmap_compose. reflexivity. }
  assert (Hnd : NoDup (merge_sort (fun x y : string * Q => Qle_bool y.2 x.2) rows).*1)
    by (rewrite Hkeys; apply group_by_NoDup).
  assert (Hin : forall k,
            k ∈ (merge_sort (fun x y : string * Q => Qle_bool y.2 x.2) rows).*1
            <-> exists r, r ∈ t /\ app.age_group r = k)
    by (intros k; rewrite Hkeys; apply group_by_keys).
  cbv zeta. split; [exact Hnd|]. split; [exact Hin|].
  split; [|split].
  - rewrite <- (length_fmap fst).
    apply (submseteq_length _ ["16-25"; "26-35"; "36-45"; "46+"]).
    apply NoDup_submseteq; [exact Hnd|].
    intros k Hk. apply Hin in Hk as (r & _ & <-). apply age_group_label.
  - apply (StronglySorted_weaken
             (fun x y : string * Q => Is_true (Qle_bool y.2 x.2))).
    + intros x y Hxy. apply Is_true_true, Qle_bool_iff in Hxy. exact Hxy.
    + apply (@StronglySorted_merge_sort _ _ _ (rate_desc_transitive snd)
               (rate_desc_total snd)).
  - apply Forall_forall. intros g Hg.
    apply elem_of_sorted_map in Hg as ([k [s n]] & Hg & ->). simpl.
    apply (group_by_elem _ _ _
             (fun l => (count_rows (fun r => is_arrested r = true) l,
                        Z.of_nat (length l)))) in Hg as [[= -> ->] Hne].
    + apply percentage_bounds; [apply count_rows_bounds|].
      destruct (filter _ t); [contradiction|simpl; lia].
    + reflexivity.
    + intros l r. simpl. rewrite count_rows_snoc, indicator_flag, length_app.
      simpl. f_equal. lia.
Qed.

(** X14. The report by violation has one row for each violation of the
    table and no other row, under distinct names; the rows come with the
    largest combined rate first, and the three rates of every row lie
    between 0 and 100. *)
Theorem violation_rates_report_rows (t : table) :
  let report := app.violation_rates t in
  NoDup report.*1 /\
  (forall v, v ∈ report.*1 <-> exists r, r ∈ t /\ violation r = v) /\
  StronglySorted
    (fun x y => (app.combined_rate y.2 <= app.combined_rate x.2)%Q) report /\
  Forall (fun g =>
            ((0 <= app.search_rate g.2)%Q /\ (app.search_rate g.2 <= 100)%Q) /\
            ((0 <= app.arrest_rate g.2)%Q /\ (app.arrest_rate g.2 <= 100)%Q) /\
            ((0 <= app.combined_rate g.2)%Q /\ (app.combined_rate g.2 <= 100)%Q))
    report.
Proof.
  unfold app.violation_rates.
  set (groups := group_by violation _ _ t).
  set (rows := map _ groups).
  assert (Hkeys : (merge_sort
                     (fun x y : string * app.rates =>
                        Qle_bool (app.combined_rate y.2) (app.combined_rate x.2))
                     rows).*1 ≡ₚ groups.*1).
  { rewrite merge_sort_Permutation. unfold rows.
    rewrite <- list_fmap_compose. reflexivity. }
  cbv zeta. split; [|split; [|split]].
  - rewrite Hkeys. apply group_by_NoDup.
  - intros v. rewrite Hkeys. apply group_by_keys.
  - apply (StronglySorted_weaken
             (fun x y : string * app.rates =>
                Is_true (Qle_bool (app.combined_rate y.2) (app.combined_rate x.2)))).
    + intros x y Hxy. apply Is_true_true, Qle_bool_iff in Hxy. exact Hxy.
    + apply (@StronglySorted_merge_sort _ _ _
               (rate_desc_transitive (fun x => app.combined_rate x.2))
               (rate_desc_total (fun x => app.combined_rate x.2))).
  - apply Forall_forall. intros g Hg.
    apply elem_of_sorted_map in Hg as ([v [[s a] n]] & Hg & ->). simpl.
    apply (group_by_elem _ _ _
             (fun l => (count_rows (fun r => search_conducted r = true) l,
                        count_rows (fun r => is_arrested r = true) l,
                        Z.of_nat (length l)))) in Hg as [[= -> -> ->] Hne].
    + assert (Hpos : 0 < Z.of_nat (length (filter (fun r => violation r = v) t)))
        by (destruct (filter _ t); [contradiction|simpl; lia]).
      split; [|split].
      * apply percentage_bounds; [apply count_rows_bounds|exact Hpos].
      * apply percentage_bounds; [apply count_rows_bounds|exact Hpos].
      * apply mean_bounds; [apply count_rows_bounds..|exact Hpos].
    + reflexivity.
    + intros l r. simpl. rewrite !count_rows_snoc, !indicator_flag, length_app.
      simpl. f_equal. lia.
Qed.

(** ** The search: the rows that are left out, and wildcards *)

Lemma latest_logs_keeps_newest (patterns : option (string * string))
  (t : table) (r : stop) :
  r ∈ t -> app.where_matches patterns r = true ->
  r ∈ app.latest_logs patterns t \/
  (length (app.latest_logs patterns t) = 50%nat /\
   Forall (fun x => newest_first x r = true) (app.latest_logs patterns t)).
Proof.
  intros Hr Hm. unfold app.latest_logs.
  assert (Hin : r ∈ filter (app.where_matches patterns) t)
    by (apply list_elem_of_filter; split; [apply Is_true_true, Hm|exact Hr]).
  destruct (sorted_prefix newest_first 50 _ r _ _ Hin) as [Hk|[Hlen Hall]];
    [left; exact Hk|right].
  split; [exact Hlen|]. apply Forall_forall. intros x Hx.
  apply Is_true_true, Hall, Hx.
Qed.

(** X15. The search leaves out old rows only: for a search term with
    no quote, percent sign, underscore, colon or backslash, a row of the
    table that shows the term in its country name or vehicle number is
    among the rows returned, unless 50 rows are returned and none of
    them is older than it. *)
Theorem search_leaves_out_old_rows_only (search_term : string) (t : table)
  (r : stop) :
  plain_term search_term = true ->
  r ∈ t -> shows_nocase search_term r = true ->
  exists rows,
    app.latest_logs_df search_term t
      = (Ok (Some (map app.log_columns rows)), t) /\
    (r ∈ rows \/
     (length rows = 50%nat /\ Forall (fun x => newest_first x r = true) rows)).
Proof.
  intros Hplain Hr Hshows.
  exists (app.latest_logs (patterns_of search_term) t). split.
  - unfold app.latest_logs_df, app.fetch_data.
    rewrite read_statement_final_query by exact Hplain. reflexivity.
  - apply latest_logs_keeps_newest; [exact Hr|].
    rewrite where_matches_shows by exact Hplain. exact Hshows.
Qed.

Lemma search_leaves_out_old_rows_only_witness :
  plain_term "india" = true /\
  exists rows,
    app.latest_logs_df "india"
      [a_stop 0 "India" (Some "RJ83PZ4441") (Some 30) false;
       a_stop 1 "Nepal" None (Some 41) true]
      = (Ok (Some (map app.log_columns rows)),
         [a_stop 0 "India" (Some "RJ83PZ4441") (Some 30) false;
          a_stop 1 "Nepal" None (Some 41) true]) /\
    (a_stop 0 "India" (Some "RJ83PZ4441") (Some 30) false ∈ rows \/
     (length rows = 50%nat /\
      Forall (fun x => newest_first x
                         (a_stop 0 "India" (Some "RJ83PZ4441") (Some 30) false)
                       = true) rows)).
Proof.
  split; [reflexivity|].
  apply (search_leaves_out_old_rows_only "india");
    [reflexivity|left|reflexivity].
Defined.










(** ** From the CSV to the table *)

Lemma field_iloc (df : DataFrame) (name : string) (i : nat) (s : Series) :
  lookup_column name (columns df) = Some s ->
  field name (iloc df i) = default NaN (s !! i).
Proof.
  unfold iloc. induction (columns df) as [|[k c] cols IH]; simpl; [discriminate|].
  destruct (String.eqb k name); [intros [= ->]; reflexivity|exact IH].
Qed.

Lemma as_text_present (c : cell) (v : option string) :
  as_text c = Ok v -> isna c = false -> is_Some v.
Proof. destruct c; simpl; intros [= <-] Hc; try discriminate; eexists; reflexivity. Qed.

Lemma insert_values_texts (id : Z) (r : record) (s : stop) :
  insert_values id r = Ok s ->
  as_text (field "vehicle_number" r) = Ok (vehicle_number s) /\
  as_text (field "search_type" r) = Ok (search_type s).
Proof.
  unfold insert_values. intros Hs.
  destruct (forallb _ r); [|discriminate]. simpl in Hs.
  repeat match type of Hs with
         | (?m ≫= _) = _ =>
             destruct m eqn:?; simpl in Hs; [|discriminate]
         end.
  injection Hs as <-. simpl. split; reflexivity.
Qed.

Lemma filled_cell_present (v : cell) (s : Series) (i : nat) :
  isna v = false -> (i < length s)%nat ->
  isna (default NaN (fillna v s !! i)) = false.
Proof.
  intros Hv Hi.
  destruct (lookup_lt_is_Some_2 (fillna v s) i) as [c Hc].
  { unfold fillna. rewrite length_map. exact Hi. }
  rewrite Hc. simpl.
  exact (Forall_lookup_1 _ _ _ _ (fillna_cells v s Hv) Hc).
Qed.

(** X18. The fills reach the table: when the script has loaded a CSV
    whose vehicle_number and search_type columns have a cell for every
    row, no row of the table has a NULL vehicle number or a NULL search
    type. *)
Theorem loaded_rows_have_vehicle_and_search_type `{Pandas}
  (csv : list (string * Series)) (t : table) :
  Forall (fun kc => kc.1 = "vehicle_number" \/ kc.1 = "search_type" ->
                    length kc.2 = length (index (process_data.read_csv csv)))
    csv ->
  process_data.main csv = (Ok tt, Some t) ->
  Forall (fun r => is_Some (vehicle_number r) /\ is_Some (search_type r)) t.
Proof.
  intros Hrect Hm. unfold process_data.main in Hm.
  destruct (process_data.normalize (process_data.read_csv csv))
    as [processed_data|] eqn:Hn; [|discriminate].
  rewrite process_data_normalize in Hn. apply cleaned_index in Hn as Hidx.
  apply cleaned_inv in Hn
    as (st & vn & sc & ia & dr & sd & tm & ds & ts &
        Gst & Gvn & _ & _ & _ & _ & _ & _ & _ & HY).
  apply create_and_load_database_appends in Hm as (rows & -> & Hids & Hrows).
  simpl. apply Forall_forall. intros r Hr.
  apply list_elem_of_lookup_1 in Hr as [i Hi].
  assert (Hlt : (i < length (index (process_data.read_csv csv)))%nat).
  { rewrite <- Hidx, <- Hids, length_map. eapply lookup_lt_Some, Hi. }
  apply Hrows, insert_values_texts in Hi as [Hv Hs].
  destruct (getitem_written (pruned (process_data.read_csv csv))
              (fillna (VStr "None Conducted") st) (fillna (VStr "Unknown") vn)
              (astype_bool sc) (astype_bool ia) (astype_bool dr)
              (dt_date ds) (dt_time ts)) as (Wst & Wvn & _).
  rewrite <- HY in Wst, Wvn.
  apply getitem_pruned in Gst as (Ist & _), Gvn as (Ivn & _).
  rewrite Forall_forall in Hrect.
  split.
  - apply (as_text_present _ _ Hv).
    rewrite (field_iloc _ _ _ _ (proj1 (getitem_Ok _ _ _) Wvn)).
    apply filled_cell_present; [reflexivity|].
    pose proof (Hrect _ Ivn (or_introl eq_refl)) as Hlen. simpl in Hlen.
    rewrite Hlen. exact Hlt.
  - apply (as_text_present _ _ Hs).
    rewrite (field_iloc _ _ _ _ (proj1 (getitem_Ok _ _ _) Wst)).
    apply filled_cell_present; [reflexivity|].
    pose proof (Hrect _ Ist (or_intror eq_refl)) as Hlen. simpl in Hlen.
    rewrite Hlen. exact Hlt.
Qed.

Lemma loaded_rows_have_vehicle_and_search_type_witness :
  exists t,
    Forall (fun kc => kc.1 = "vehicle_number" \/ kc.1 = "search_type" ->
                      length kc.2 = length (index (process_data.read_csv raw_columns)))
      raw_columns /\
    @process_data.main iso_pandas raw_columns = (Ok tt, Some t) /\
    Forall (fun r => is_Some (vehicle_number r) /\ is_Some (search_type r)) t.
Proof.
  eexists.
  assert (Hrect : Forall (fun kc : string * Series =>
                    kc.1 = "vehicle_number" \/ kc.1 = "search_type" ->
                    length kc.2 = length (index (process_data.read_csv raw_columns)))
                    raw_columns)
    by (repeat constructor).
  split; [exact Hrect|]. split; [vm_compute; reflexivity|].
  apply (@loaded_rows_have_vehicle_and_search_type iso_pandas raw_columns);
    [exact Hrect|vm_compute; reflexivity].
Defined.

(** ** A logged stop and the search *)

Lemma starts_with_refl (s : string) : starts_with s s = true.
Proof.
  induction s as [|c s IH]; [reflexivity|].
  simpl. rewrite Ascii.eqb_refl. exact IH.
Qed.

Lemma contains_nocase_refl (s : string) : contains_nocase s s = true.
Proof.
  unfold contains_nocase. destruct (lower_string s) as [|c u] eqn:E;
    [reflexivity|].
  cbn [contains]. rewrite starts_with_refl. reflexivity.
Qed.

(** X19. A stop logged through the form is found by its vehicle number:
    when the vehicle number has no quote, percent sign, underscore, colon
    or backslash and the gender is not empty, the search for the vehicle
    number on the table after [log_new_stop] returns the row of the
    stop, unless it returns 50 rows none of which is older than the
    stop. *)
Theorem logged_stop_is_found (t : table) stop_date stop_time country_name
  vehicle_number driver_gender driver_age violation stop_duration
  search_conducted drugs_related_stop is_arrested stop_outcome :
  plain_term vehicle_number = true ->
  driver_gender <> "" ->
  exists t' r rows,
    app.log_new_stop
      (app.new_log stop_date stop_time country_name vehicle_number
         driver_gender driver_age violation stop_duration search_conducted
         drugs_related_stop is_arrested stop_outcome) t = (Ok true, t') /\
    r = logged_stop (next_rowid t) stop_date stop_time country_name
          vehicle_number driver_gender driver_age violation stop_duration
          search_conducted drugs_related_stop is_arrested stop_outcome /\
    app.latest_logs_df vehicle_number t'
      = (Ok (Some (map app.log_columns rows)), t') /\
    (r ∈ rows \/
     (length rows = 50%nat /\ Forall (fun x => newest_first x r = true) rows)).
Proof.
  intros Hplain _. eexists _, _, _.
  split; [apply log_new_stop_new_log|]. split; [reflexivity|].
  split.
  - unfold app.latest_logs_df, app.fetch_data.
    rewrite read_statement_final_query by exact Hplain. reflexivity.
  - apply latest_logs_keeps_newest.
    + apply elem_of_app. right. left.
    + rewrite where_matches_shows by exact Hplain.
      unfold shows_nocase. apply orb_true_iff. right.
      exact (contains_nocase_refl _).
Qed.

Lemma logged_stop_is_found_witness :
  plain_term "RJ83PZ4441" = true /\
  "Other" <> "" /\
  exists t' r rows,
    app.log_new_stop
      (app.new_log (Date 2024 3 9) (Time 18 5 0 0) "India" "RJ83PZ4441" "Other"
         30 "Speeding" "6-15 min" true false false "Warning") four_ages
    = (Ok true, t') /\
    r = logged_stop (next_rowid four_ages) (Date 2024 3 9) (Time 18 5 0 0)
          "India" "RJ83PZ4441" "Other" 30 "Speeding" "6-15 min" true false
          false "Warning" /\
    app.latest_logs_df "RJ83PZ4441" t'
      = (Ok (Some (map app.log_columns rows)), t') /\
    (r ∈ rows \/
     (length rows = 50%nat /\ Forall (fun x => newest_first x r = true) rows)).
Proof.
  split; [reflexivity|]. split; [discriminate|].
  apply (logged_stop_is_found four_ages (Date 2024 3 9) (Time 18 5 0 0)
           "India" "RJ83PZ4441" "Other" 30 "Speeding" "6-15 min" true false
           false "Warning"); [reflexivity|discriminate].
Defined.

(** ** The two copies of [preprocess_data] *)

Lemma assign_column_twice (name : string) (s1 s2 : Series)
  (cols : list (string * Series)) :
  assign_column name s2 (assign_column name s1 cols) = assign_column name s2 cols.
Proof.
  induction cols as [|[k old] rest IH]; simpl.
  - rewrite String.eqb_refl. reflexivity.
  - destruct (String.eqb k name) eqn:E; simpl; rewrite E; [reflexivity|].
    rewrite IH. reflexivity.
Qed.

Lemma setitem_twice (df : DataFrame) (name : string) (s1 s2 : Series) :
  setitem (setitem df name s1) name s2 = setitem df name s2.
Proof. unfold setitem. simpl. rewrite assign_column_twice. reflexivity. Qed.

(** X20. The normalizer of [process_data.py] and the one of
    [data_cleaning.py] differ in the stop_time column only: when both
    return on a raw frame, the result of the first is the result of the
    second with its stop_time column replaced, so the row labels, the
    columns and their order and every other cell are the same. *)
Theorem normalizers_differ_in_stop_time `{Pandas} (raw a b : DataFrame) :
  data_cleaning.normalize raw = Ok a ->
  process_data.normalize raw = Ok b ->
  exists tm,
    getitem b "stop_time" = Ok tm /\
    b = setitem a "stop_time" tm /\
    index b = index a /\
    forall name, name <> "stop_time" -> getitem b name = getitem a name.
Proof.
  rewrite data_cleaning_normalize, process_data_normalize. intros Ha Hb.
  apply cleaned_inv in Ha
    as (st & vn & sc & ia & dr & sd & tm & ds & ts &
        Gst & Gvn & Gsc & Gia & Gdr & Gsd & Gtm & Tds & Tts & ->).
  apply cleaned_inv in Hb
    as (st' & vn' & sc' & ia' & dr' & sd' & tm' & ds' & ts' &
        Gst' & Gvn' & Gsc' & Gia' & Gdr' & Gsd' & Gtm' & Tds' & Tts' & ->).
  rewrite Gst in Gst'. injection Gst' as <-.
  rewrite Gvn in Gvn'. injection Gvn' as <-.
  rewrite Gsc in Gsc'. injection Gsc' as <-.
  rewrite Gia in Gia'. injection Gia' as <-.
  rewrite Gdr in Gdr'. injection Gdr' as <-.
  rewrite Gsd in Gsd'. injection Gsd' as <-.
  rewrite Tds in Tds'. injection Tds' as <-.
  exists (dt_time ts'). unfold written.
  split; [apply getitem_setitem_eq|]. split; [|split].
  - rewrite setitem_twice. reflexivity.
  - reflexivity.
  - intros name Hne.
    rewrite !(getitem_setitem_ne _ "stop_time") by (intros E; apply Hne; symmetry; exact E).
    reflexivity.
Qed.

Lemma normalizers_differ_in_stop_time_witness :
  exists a b tm,
    @data_cleaning.normalize iso_pandas raw_frame = Ok a /\
    @process_data.normalize iso_pandas raw_frame = Ok b /\
    getitem b "stop_time" = Ok tm /\
    b = setitem a "stop_time" tm.
Proof.
  destruct (@normalizers_differ_in_stop_time iso_pandas raw_frame
              clean_frame clean_frame) as (tm & Hg & Hb & _);
    [vm_compute; reflexivity|vm_compute; reflexivity|].
  exists clean_frame, clean_frame, tm.
  split; [vm_compute; reflexivity|]. split; [vm_compute; reflexivity|].
  split; [exact Hg|exact Hb].
Defined.
